(** * esi-bot-v2: the Slack gateway's cache, CSRF state and request handlers

  A shallow embedding of [slack/status.go] and [internal/server/slack.go].
  Go values are modelled as follows.
    - [int], [time.Duration] and Unix nanoseconds are [Z]; lengths of slices
      are far below the 64-bit range, so no wrap-around is written out
      except where the source saturates ([time.Time.Sub]).
    - [float64] is Rocq's primitive binary64 [float].
    - [string] is [string], [[]byte] is [list Byte.byte].
    - A [map[string]T] is a [gmap string T]; a pointer that can be nil is
      an [option], and a handler that can panic says how it ends.
    - An [io.Reader] is the bytes it delivers together with the error, if
      any, that ends the stream instead of [io.EOF].
    - A collaborator outside the repository (the HTTP client, the JSON
      decoder, the Slack SDK) is a field of the [World] record of its
      package, the clock reading is an argument of the handler; the effects
      of a handler (cache contents, posted chat messages, documents written
      to the response) are returned explicitly. *)

From Stdlib Require Import ZArith List String Ascii DecimalString.
From Stdlib Require Import PrimFloat Uint63.
From stdpp Require Import gmap strings list.

Open Scope Z_scope.

(** ** Go runtime helpers *)

Module Go.

(** [fmt.Sprintf("%d", n)]. *)
Definition fmt_d (n : Z) : string := NilZero.string_of_int (Z.to_int n).

(** [float64(n)] for an [int] (a 64-bit signed integer): the nearest
    binary64. The sign is handled apart because [of_uint63] reads an
    unsigned 63-bit integer, and so is the least [int], whose magnitude
    does not fit in 63 bits. *)
Definition float64 (n : Z) : float :=
  if n =? - 2 ^ 63 then (-9223372036854775808)%float
  else if n <? 0 then PrimFloat.opp (PrimFloat.of_uint63 (Uint63.of_Z (- n)))
  else PrimFloat.of_uint63 (Uint63.of_Z n).

(** [len(s)] of a slice. *)
Definition len {A} (s : list A) : Z := Z.of_nat (length s).

(** [strings.Join(elems, sep)]. *)
Definition Join (elems : list string) (sep : string) : string :=
  String.concat sep elems.

Definition newline : string := String (ascii_of_nat 10) EmptyString.

(** An [io.Reader]: what [ioutil.ReadAll] gets out of it. *)
Record Reader := mkReader {
  content : list Byte.byte;
  failure : option string
}.

(** [ioutil.ReadAll(r)]: the bytes read and the error, [None] at EOF. *)
Definition ReadAll (r : Reader) : list Byte.byte * option string :=
  (content r, failure r).

(** A reader that was read up to its error [err]: the bytes it delivered
    went to the caller of that read, what is left is the error. *)
Definition drained (err : string) : Reader := mkReader [] (Some err).

(** [bytes.NewBuffer(b)] behind [ioutil.NopCloser]: never fails. *)
Definition NewBuffer (b : list Byte.byte) : Reader := mkReader b None.

End Go.

(** ** Time, as far as [determineServerRunTime] uses it *)

Module GoTime.

(** A [time.Time] is the number of nanoseconds since the zero Time,
    January 1, year 1, 00:00:00 UTC. *)
Definition Time := Z.
Definition Duration := Z.

Definition Nanosecond : Duration := 1.
Definition Second : Duration := 1000000000.
Definition Minute : Duration := 60 * Second.
Definition Hour : Duration := 60 * Minute.

Definition minDuration : Duration := - 2 ^ 63.
Definition maxDuration : Duration := 2 ^ 63 - 1.

(** [time.Time{}] *)
Definition zero : Time := 0.

(** [t.Sub(u)]: the difference, saturated to the range of [Duration]. *)
Definition Sub (t u : Time) : Duration :=
  let d := t - u in
  if d <? minDuration then minDuration
  else if maxDuration <? d then maxDuration
  else d.

(** [time.Since(from)] with the clock reading [now]. *)
Definition Since (now from : Time) : Duration := Sub now from.

(** [t.Add(d)] *)
Definition Add (t : Time) (d : Duration) : Time := t + d.

(** Seconds elapsed since midnight, as [Time.Clock] computes them. *)
Definition secondsOfDay (t : Time) : Z := (t / Second) mod 86400.

Definition hour (t : Time) : Z := secondsOfDay t / 3600.
Definition minute (t : Time) : Z := (secondsOfDay t mod 3600) / 60.
Definition second (t : Time) : Z := secondsOfDay t mod 60.

(** A two-digit, zero-padded field ([15], [04], [05] of a layout). *)
Definition pad2 (n : Z) : string :=
  if n <? 10 then "0" +:+ Go.fmt_d n else Go.fmt_d n.

(** [t.Format("15h 04m 05s")]: [15], [04] and [05] are the hour, minute
    and second fields, the letters and blanks are literal. *)
Definition Format_15h_04m_05s (t : Time) : string :=
  pad2 (hour t) +:+ "h " +:+ pad2 (minute t) +:+ "m " +:+
  pad2 (second t) +:+ "s".

End GoTime.

(** ** The result of a fallible call: a value, or the text of the [error] *)

Inductive result (A : Type) : Type :=
| Ok (a : A)
| Err (e : string).

Arguments Ok {A} a.
Arguments Err {A} e.

(** ** github.com/patrickmn/go-cache, as the two packages use it *)

(** Modelled from the spec: the ephemeral state store of section 4.1 is
    the package [github.com/patrickmn/go-cache], a dependency whose code
    is not under the source tree. The operations below are the ones the
    two files call, with the behaviour the package documents: [Set]
    inserts or overwrites, [Get] reports an absent or expired item as not
    found without waiting for the sweep, [Delete] removes at once,
    [Flush] empties the store, and the janitor sweeps expired items. Every
    operation holds the lock of the cache for its whole duration, so it is
    one atomic step. *)

Module cache.

(** [cache.DefaultExpiration] and [cache.NoExpiration]. *)
Definition DefaultExpiration : Z := 0.
Definition NoExpiration : Z := -1.

Section WithValue.

Context {V : Type}.

(** An [Item]: the stored object and the Unix time in nanoseconds at which
    it expires, or [0] when it never does. *)
Record Item := mkItem {
  Object : V;
  Expiration : Z
}.

Record Cache := mkCache {
  defaultExpiration : Z;
  items : gmap string Item
}.

(** [cache.New(defaultExpiration, cleanupInterval)]. The cleanup interval
    only sets how often the janitor calls [DeleteExpired]. *)
Definition New (de cleanupInterval : Z) : Cache :=
  mkCache (if de =? 0 then -1 else de) ∅.

(** [item.Expiration > 0 && now > item.Expiration] *)
Definition expired (now : Z) (it : Item) : bool :=
  (0 <? Expiration it) && (Expiration it <? now).

(** [c.Set(k, x, d)] when the clock reads [now]. *)
Definition Set_ (c : Cache) (now : Z) (k : string) (x : V) (d : Z) : Cache :=
  let d := if d =? DefaultExpiration then defaultExpiration c else d in
  let e := if 0 <? d then now + d else 0 in
  mkCache (defaultExpiration c) (<[k := mkItem x e]> (items c)).

(** [c.Get(k)] when the clock reads [now]: a read never changes the cache,
    an expired item is reported absent and left to the janitor. *)
Definition Get (c : Cache) (now : Z) (k : string) : option V :=
  match items c !! k with
  | None => None
  | Some it => if expired now it then None else Some (Object it)
  end.

(** [c.Delete(k)] *)
Definition Delete (c : Cache) (k : string) : Cache :=
  mkCache (defaultExpiration c) (delete k (items c)).

(** [c.Flush()] *)
Definition Flush (c : Cache) : Cache :=
  mkCache (defaultExpiration c) ∅.

(** [c.DeleteExpired()], the janitor's sweep, when the clock reads [now]. *)
Definition DeleteExpired (c : Cache) (now : Z) : Cache :=
  mkCache (defaultExpiration c)
    (filter (fun kv => expired now (snd kv) = false) (items c)).

End WithValue.

Arguments Item : clear implicits.
Arguments Cache : clear implicits.

End cache.

(** ** Package eb2: the types the two files use *)

Module eb2.

(** Modelled from the spec: [eb2.ESIStatus] is declared outside the two
    files; its fields are the route status of the data model, a method, a
    route and a status, each a string as the code reads them. A pointer
    [*eb2.ESIStatus] is an [option ESIStatus]: [Some] of the value the
    decoder allocates for a JSON object, [None] for the nil pointer it
    leaves for a JSON [null]. *)
Record ESIStatus := mkESIStatus {
  Method : string;
  Route : string;
  Status : string
}.

(** Modelled from the spec: [eb2.ServerStatus], also declared outside; the
    handler reads the player count, the start time and the VIP flag. *)
Record ServerStatus := mkServerStatus {
  Players : Z;
  StartTime : GoTime.Time;
  Vip : bool
}.

End eb2.

(** ** github.com/nlopes/slack: messages handed to [PostMessage] *)

Module nslack.

Record AttachmentField := mkField {
  Title : string;
  Value : string;
  Short : bool
}.

(** The fields of [slack.Attachment] the handlers set; an unset field is
    the empty string or the empty slice. *)
Record Attachment := mkAttachment {
  Color : string;
  AttTitle : string;
  Fallback : string;
  Text : string;
  Fields : list AttachmentField
}.

Inductive MsgOption :=
| MsgOptionText (text : string) (escape : bool)
| MsgOptionAttachments (attachments : list Attachment).

(** One call of [PostMessage(channel, option)]. *)
Definition Post : Type := string * MsgOption.

End nslack.

(** ** slack/status.go *)

Module slack.

Import eb2 nslack.

Record StatusCategory := mkCategory {
  CStatus : string;
  Emoji : string;
  CColor : string
}.

Definition categories : list StatusCategory :=
  [ mkCategory "red" ":fire:" "danger";
    mkCategory "yellow" ":fire_engine:" "warning" ].

(** [cache.New(time.Minute*1, time.Second*30)] *)
Definition statusCache_init : cache.Cache (list (option ESIStatus)) :=
  cache.New (1 * GoTime.Minute) (30 * GoTime.Second).

(** An [*http.Response] as the handlers read it. *)
Record Response := mkResponse {
  StatusCode : Z;
  Body : Go.Reader
}.

(** A [url.URL] built from [eb2.ESI_BASE]: the path and the query the
    handler sets on it. *)
Record URL := mkURL {
  Path : string;
  RawQuery : list (string * string)
}.

(** What lies outside the package: the upstream reached through
    [http.Get], the JSON decoder, and the formatting functions of [fmt],
    [strings] and [time] whose output the handlers only pass on. *)
Record World := mkWorld {
  http_Get : URL -> result Response;
  Unmarshal_routes : list Byte.byte -> result (list (option ESIStatus));
  Unmarshal_status : list Byte.byte -> result ServerStatus;
  fmt_f3 : float -> string;             (* the verb %.3f *)
  strings_Title : string -> string;
  strings_ToUpper : string -> string;
  Format_layoutESI : GoTime.Time -> string
}.

(** [determineServerRunTime(from)] when the clock reads [now]. *)
Definition determineServerRunTime (now from : GoTime.Time) : string :=
  let n := GoTime.Since now from in
  GoTime.Format_15h_04m_05s (GoTime.Add GoTime.zero n).

(** [makeEveServerStatusMessage(event)]: the messages posted to the
    channel of the event. *)
Definition makeEveServerStatusMessage (w : World) (now : GoTime.Time)
    (channel : string) : list Post :=
  match http_Get w (mkURL "/v1/status" []) with
  | Err err => [(channel, MsgOptionText err true)]
  | Ok resp =>
    if 200 <? StatusCode resp then
      if negb (StatusCode resp =? 503) then
        let indeterminate :=
          "Cannet Determine server status. It might be offline, or experiencing connectivity issues." in
        [(channel, MsgOptionAttachments
            [mkAttachment "danger" ("Tranquility" +:+ " status") 
               ("Tranquility" +:+ " Status: " +:+ indeterminate)
               indeterminate []])]
      else
        [(channel, MsgOptionAttachments
            [mkAttachment "danger" ("Tranquility" +:+ " status")
               ("Tranquility" +:+ " Status: Offline") "Offline" []])]
    else
      match Go.ReadAll (Body resp) with
      | (_, Some err) => [(channel, MsgOptionText err true)]
      | (data, None) =>
        match Unmarshal_status w data with
        | Err err => [(channel, MsgOptionText err true)]
        | Ok status =>
          let color := if Vip status then "warning" else "good" in
          let inVip := if Vip status then ", in VIP" else "" in
          [(channel, MsgOptionAttachments
              [mkAttachment color ("Tranquility" +:+ " status")
                 ("Tranquility" +:+ " status: " +:+ Go.fmt_d (Players status)
                  +:+ " player online, started at "
                  +:+ Format_layoutESI w (StartTime status) +:+ inVip)
                 ""
                 [ mkField "Players Online" (Go.fmt_d (Players status)) false;
                   mkField "Started At"
                     (Format_layoutESI w (StartTime status)) true;
                   mkField "Running For"
                     (determineServerRunTime now (StartTime status)) true ]])]
        end
      end
  end.

(** [fetchRouteStatuses(version)]: the cache afterwards and the result. *)
Definition fetchRouteStatuses (w : World) (now : Z) (version : string)
    (statusCache : cache.Cache (list (option ESIStatus)))
  : cache.Cache (list (option ESIStatus))
    * result (list (option ESIStatus)) :=
  match http_Get w (mkURL "status.json" [("version", version)]) with
  | Err err => (statusCache, Err err)
  | Ok resp =>
    match Go.ReadAll (Body resp) with
    | (_, Some err) => (statusCache, Err err)
    | (data, None) =>
      match Unmarshal_routes w data with
      | Err err => (statusCache, Err err)
      | Ok routes => (cache.Set_ statusCache now version routes 0, Ok routes)
      end
    end
  end.

(** The three ways in which [fetchRouteStatuses(version)] fails with the
    error [err]: the request, the reading of the body, the decoding. *)
Inductive fetch_fails (w : World) (version : string) (err : string) : Prop :=
| network_error :
    http_Get w (mkURL "status.json" [("version", version)]) = Err err ->
    fetch_fails w version err
| body_read_error resp data :
    http_Get w (mkURL "status.json" [("version", version)]) = Ok resp ->
    Go.ReadAll (Body resp) = (data, Some err) ->
    fetch_fails w version err
| json_decode_error resp data :
    http_Get w (mkURL "status.json" [("version", version)]) = Ok resp ->
    Go.ReadAll (Body resp) = (data, None) ->
    Unmarshal_routes w data = Err err ->
    fetch_fails w version err.

(** [checkCache(version)]: the routes, [[]] standing for the nil slice, and
    whether the version was found. *)
Definition checkCache (now : Z) (version : string)
    (statusCache : cache.Cache (list (option ESIStatus)))
  : list (option ESIStatus) * bool :=
  match cache.Get statusCache now version with
  | Some check => (check, true)
  | None => ([], false)
  end.

(** [percentage(top, bottom)] *)
Definition percentage (top bottom : Z) : float :=
  if bottom =? 0 then 0%float
  else PrimFloat.sub 1
         (PrimFloat.mul (PrimFloat.div (Go.float64 top) (Go.float64 bottom))
            100).

(** The line of one route: [fmt.Sprintf("%s %s", ToUpper(Method), Route)]. *)
Definition routeLine (w : World) (route : ESIStatus) : string :=
  strings_ToUpper w (Method route) +:+ " " +:+ Route route.

(** The loop of [generateRoutesString] from index [i] on: [routes] is
    [routes[i:]], [processed] the counter on entry; the result is what the
    loop appends to [t]. *)
Fixpoint routeLines (w : World) (processed : Z) (routes : list ESIStatus)
  : list string :=
  match routes with
  | [] => []
  | route :: rest =>
    let processed := processed + 1 in
    if 50 <? processed then
      [routeLine w route; Go.fmt_d (Go.len routes)]
    else
      routeLine w route :: routeLines w processed rest
  end.

(** [generateRoutesString(routes)]; the handler calls it on the routes
    its loop has kept, which are values. *)
Definition generateRoutesString (w : World) (routes : list ESIStatus)
  : string :=
  if Go.len routes =? 0 then ""
  else "```" +:+ Go.Join (routeLines w 0 routes) Go.newline +:+ "```".

(** How a handler ends: it returns, or a nil pointer dereference panics. *)
Inductive ending := Returned | Panicked.

(** Lines 200 to 205, the loop over [routes] for one category: the routes
    whose status is that of the category, or [None] when the loop panics,
    which it does when it reads [route.Status] through a nil pointer. The
    routes it keeps have been dereferenced, so they are values. *)
Fixpoint categoryRoutes (category : StatusCategory)
    (routes : list (option ESIStatus)) : option (list ESIStatus) :=
  match routes with
  | [] => Some []
  | None :: _ => None
  | Some route :: rest =>
    match categoryRoutes category rest with
    | None => None
    | Some kept =>
      Some (if String.eqb (Status route) (CStatus category)
            then route :: kept else kept)
    end
  end.

(** The body of the loop over [categories]: the attachment of one category,
    if any route has its status; [None] when the inner loop panics. *)
Definition categoryAttachments (w : World) (routes : list (option ESIStatus))
    (category : StatusCategory) : option (list Attachment) :=
  match categoryRoutes category routes with
  | None => None
  | Some categoryRoutes =>
    Some
      (if 0 <? Go.len categoryRoutes then
         [ mkAttachment (CColor category) ""
             (strings_Title w (CStatus category) +:+ ": "
              +:+ Go.fmt_d (Go.len categoryRoutes) +:+ " out of "
              +:+ Go.fmt_d (Go.len routes) +:+ ", "
              +:+ fmt_f3 w (percentage (Go.len categoryRoutes) (Go.len routes))
              +:+ "%")
             (Emoji category +:+ " "
              +:+ (Go.fmt_d (Go.len categoryRoutes) +:+ " "
                   +:+ strings_Title w (CStatus category) +:+ " (out of "
                   +:+ Go.fmt_d (Go.len routes) +:+ ",  "
                   +:+ fmt_f3 w
                         (percentage (Go.len categoryRoutes) (Go.len routes))
                   +:+ "%)")
              +:+ " " +:+ Emoji category +:+ " "
              +:+ generateRoutesString w categoryRoutes)
             [] ]
       else [])
  end.

(** The loop over the categories [cs]: the attachments appended, or [None]
    when the body panics for one of them. *)
Fixpoint attachmentsOf (w : World) (routes : list (option ESIStatus))
    (cs : list StatusCategory) : option (list Attachment) :=
  match cs with
  | [] => Some []
  | category :: cs =>
    match categoryAttachments w routes category with
    | None => None
    | Some attachment =>
      match attachmentsOf w routes cs with
      | None => None
      | Some attachments => Some (attachment ++ attachments)
      end
    end
  end.

(** Lines 198 to 240: the attachments of the reply for [routes], or [None]
    when the loops panic. *)
Definition statusAttachments (w : World) (routes : list (option ESIStatus))
  : option (list Attachment) :=
  match attachmentsOf w routes categories with
  | None => None
  | Some attachments =>
    Some (if Go.len attachments =? 0
          then [mkAttachment "" "" "" ":ok_hand:" []]
          else attachments)
  end.

(** An [Event]: its flags and the channel it came from. *)
Record Event := mkEvent {
  flags : gmap string string;
  origin_Channel : string
}.

(** Lines 179 to 182: the version asked for, ["latest"] without the flag. *)
Definition requestedVersion (event : Event) : string :=
  match flags event !! "version" with
  | Some v => v
  | None => "latest"
  end.

(** Lines 187 to 194, the block of [if !found]: fetch, and on success
    flush the cache and store the routes under [version]. The result is
    the cache afterwards and the error of the fetch, [None] for [nil]. The
    [routes] that the block declares with [:=] is a variable of the block
    and ends with it. *)
Definition refresh (w : World) (now : Z) (version : string)
    (statusCache : cache.Cache (list (option ESIStatus)))
  : cache.Cache (list (option ESIStatus)) * option string :=
  match fetchRouteStatuses w now version statusCache with
  | (statusCache, Err err) => (statusCache, Some err)
  | (statusCache, Ok routes) =>
    (cache.Set_ (cache.Flush statusCache) now version routes 0, None)
  end.

(** [makeESIStatusMessage(event)] when the clock reads [now] (one reading
    stands for the readings of the cache calls of one invocation): the
    cache afterwards, the messages posted, and how the handler ends. The
    loop below the block of [if !found] reads the [routes] that
    [checkCache] returned; when it panics nothing has been posted. *)
Definition makeESIStatusMessage (w : World) (now : Z) (event : Event)
    (statusCache : cache.Cache (list (option ESIStatus)))
  : cache.Cache (list (option ESIStatus)) * list Post * ending :=
  let version := requestedVersion event in
  let '(routes, found) := checkCache now version statusCache in
  let '(statusCache, err) :=
    if negb found then refresh w now version statusCache
    else (statusCache, None) in
  match err with
  | Some err =>
    (statusCache, [(origin_Channel event, MsgOptionText err true)], Returned)
  | None =>
    match statusAttachments w routes with
    | None => (statusCache, [], Panicked)
    | Some attachments =>
      (statusCache,
       [(origin_Channel event, MsgOptionAttachments attachments)], Returned)
    end
  end.

End slack.

(** ** internal/server/slack.go *)

Module server.

Import nslack.

(** [errors.Wrap(err, message)]: the text of the wrapped error. *)
Definition Wrap (err message : string) : string := message +:+ ": " +:+ err.

#[local] Unset Elimination Schemes.

(** A decoded JSON value ([interface{}] filled by [encoding/json]). *)
Inductive JSON :=
| JNull
| JBool (b : bool)
| JNumber (n : float)
| JString (s : string)
| JArray (elems : list JSON)
| JObject (members : list (string * JSON)).

#[local] Set Elimination Schemes.

(** The values the handlers encode into the response. *)
Inductive Document :=
| DError (message : string)                  (* the body of [writeError] *)
| DUrl (url : string)                        (* [struct{ Url string }] *)
| DData (data : JSON)                        (* [map[string]interface{}] *)
| DChallenge (challenge : string)            (* [*ChallengeResponse] *)
| DInviteResponse (ok : bool) (error : string)
| DMessage (message : string).

(** An [http.ResponseWriter]: the status line, once written, and the
    documents written to the body, oldest first. *)
Record ResponseWriter := mkResponseWriter {
  status : option Z;
  written : list Document
}.

Definition newResponse : ResponseWriter := mkResponseWriter None [].

(** [w.WriteHeader(code)]: only the first call counts. *)
Definition WriteHeader (w : ResponseWriter) (code : Z) : ResponseWriter :=
  match status w with
  | Some _ => w
  | None => mkResponseWriter (Some code) (written w)
  end.

(** [json.NewEncoder(w).Encode(v)]: a write before any [WriteHeader] sends
    status 200 first. *)
Definition Encode (w : ResponseWriter) (v : Document) : ResponseWriter :=
  let w := WriteHeader w 200 in
  mkResponseWriter (status w) (written w ++ [v]).

Definition StatusOK : Z := 200.
Definition StatusBadRequest : Z := 400.
Definition StatusInternalServerError : Z := 500.

(** Modelled from the spec: [s.writeError] is declared outside the file; a
    caller receives the status and a JSON error body with the underlying
    message. *)
Definition writeError (w : ResponseWriter) (err : string) (code : Z)
  : ResponseWriter :=
  Encode (WriteHeader w code) (DError err).

(** Modelled from the spec: [s.writeSuccess] is declared outside the file;
    it sends the status and the JSON body of [data], an empty body for
    [nil]. *)
Definition writeSuccess (w : ResponseWriter) (data : option Document)
    (code : Z) : ResponseWriter :=
  match data with
  | Some d => Encode (WriteHeader w code) d
  | None => WriteHeader w code
  end.

(** A [jwt.Token] as the handler reads it. *)
Inductive ClaimValue :=
| ClaimString (s : string)
| ClaimOther.

Inductive Claims :=
| MapClaims (m : gmap string ClaimValue)
| OtherClaims.

(** An [*http.Request]: headers, body, and the value of the context under
    [tokenKey]. *)
Record Request := mkRequest {
  Header : gmap string string;
  Body : Go.Reader;
  ctx_token : option Claims
}.

Record Config := mkConfig {
  SlackSigningSecret : string;
  SlackModChannel : string;
  EveCallback : string;
  EveClientID : string;
  EveClientSecret : string
}.

Record SlackInvite := mkSlackInvite {
  State : string;
  Code : string
}.

Record SlackInviteSend := mkSlackInviteSend {
  Email : string
}.

(** The request of line 145 with its headers. *)
Record TokenRequest := mkTokenRequest {
  URL : string;
  Form : string;
  Headers : list (string * string)
}.

(** An event parsed by [slackevents.ParseEvent]. *)
Inductive InnerEvent :=
| MessageEvent (e : string)
| OtherInnerEvent.

Record EventsAPIEvent := mkEvent {
  Type_ : string;
  InnerEvent_Data : InnerEvent
}.

Definition URLVerification : string := "url_verification".

(** What lies outside the package: the Slack SDK's verifier and client,
    the HTTP client, and the encoders and decoders. *)
Record World := mkWorld {
  SecretsVerifier : Type;
  NewSecretsVerifier : gmap string string -> string -> result SecretsVerifier;
  verifier_Write : SecretsVerifier -> list Byte.byte -> result SecretsVerifier;
  verifier_Ensure : SecretsVerifier -> option string;
  ParseEvent : list Byte.byte -> result EventsAPIEvent;
  Unmarshal_challenge : list Byte.byte -> result string;
  Decode_SlackInvite : Go.Reader -> result SlackInvite;
  Decode_SlackInviteSend : Go.Reader -> result SlackInviteSend;
  Decode_data : Go.Reader -> result JSON;
  Values_Encode : list (string * string) -> string;
  base64_Encode : string -> string;
  client_Do : TokenRequest -> result Go.Reader;
  PostMessage : string -> MsgOption -> option string
}.

(** [verifySlackReqeust(req, secret)]: the request afterwards and the
    error, [None] for [nil]. *)
Definition verifySlackReqeust (w : World) (req : Request) (secret : string)
  : Request * option string :=
  match NewSecretsVerifier w (Header req) secret with
  | Err err => (req, Some (Wrap err "failed to create secrets verifier"))
  | Ok verifier =>
    match Go.ReadAll (Body req) with
    | (_, Some err) =>
      (mkRequest (Header req) (Go.drained err) (ctx_token req),
       Some (Wrap err "failed to read the body from the request"))
    | (body, None) =>
      let req := mkRequest (Header req) (Go.NewBuffer body) (ctx_token req) in
      match verifier_Write w verifier body with
      | Err err =>
        (req, Some (Wrap err "failed to write body to the verifier"))
      | Ok verifier =>
        match verifier_Ensure w verifier with
        | Some err => (req, Some (Wrap err "failed to ensure the verifier"))
        | None => (req, None)
        end
      end
    end
  end.

(** [handlePostSlack]: the response and the message events handed to
    [s.slack.ProcessEvent] by the goroutine. *)
Definition handlePostSlack (w : World) (config : Config) (r : Request)
  : ResponseWriter * list string :=
  match verifySlackReqeust w r (SlackSigningSecret config) with
  | (_, Some err) => (writeError newResponse err StatusBadRequest, [])
  | (r, None) =>
    match Go.ReadAll (Body r) with
    | (_, Some err) =>
      (writeError newResponse err StatusInternalServerError, [])
    | (body, None) =>
      match ParseEvent w body with
      | Err err => (writeError newResponse err StatusInternalServerError, [])
      | Ok event =>
        if String.eqb (Type_ event) URLVerification then
          match Unmarshal_challenge w body with
          | Err err =>
            (writeError newResponse err StatusInternalServerError, [])
          | Ok r =>
            (writeSuccess newResponse (Some (DChallenge r)) StatusOK, [])
          end
        else
          (writeSuccess newResponse None StatusOK,
           match InnerEvent_Data event with
           | MessageEvent e => [e]
           | OtherInnerEvent => []
           end)
      end
    end
  end.

(** [cache.New(time.Minute*5, time.Minute*5)] *)
Definition stateMap_init : cache.Cache bool :=
  cache.New (5 * GoTime.Minute) (5 * GoTime.Minute).

(** [s.IsValid()] *)
Definition IsValid (s : SlackInvite) : bool :=
  negb (String.eqb (State s) "") && negb (String.eqb (Code s) "").

(** [handleGetSlackInvite] when the clock reads [now] and
    [tools.RandomString(16)] returns [state]. *)
Definition handleGetSlackInvite (w : World) (config : Config) (now : Z)
    (state : string) (stateMap : cache.Cache bool)
  : cache.Cache bool * ResponseWriter :=
  let stateMap := cache.Set_ stateMap now state true 0 in
  let query :=
    [ ("response_type", "code");
      ("redirect_uri", EveCallback config);
      ("client_id", EveClientID config);
      ("state", state) ] in
  let uri :=
    "https://login.eveonline.com/v2/oauth/authorize?"
    +:+ Values_Encode w query in
  (stateMap, writeSuccess newResponse (Some (DUrl uri)) StatusOK).

(** Lines 133 to 139: look the state up and delete it when found. *)
Definition redeem (now : Z) (state : string) (stateMap : cache.Cache bool)
  : cache.Cache bool * bool :=
  match cache.Get stateMap now state with
  | None => (stateMap, false)
  | Some _ => (cache.Delete stateMap state, true)
  end.

(** [handlePostSlackInvite] when the clock reads [now]: the state store
    afterwards, the response, and the requests sent to the token endpoint. *)
Definition handlePostSlackInvite (w : World) (config : Config) (now : Z)
    (r : Request) (stateMap : cache.Cache bool)
  : cache.Cache bool * ResponseWriter * list TokenRequest :=
  match Decode_SlackInvite w (Body r) with
  | Err err => (stateMap, writeError newResponse err StatusBadRequest, [])
  | Ok body =>
    if negb (IsValid body) then
      (stateMap,
       writeError newResponse
         "invalid body received. Please provide both code and state"
         StatusBadRequest, [])
    else
      match redeem now (State body) stateMap with
      | (stateMap, false) =>
        (stateMap,
         writeError newResponse "invalid state received" StatusBadRequest, [])
      | (stateMap, true) =>
        let uri :=
          [("grant_type", "authorization_code"); ("code", Code body)] in
        let req :=
          mkTokenRequest "https://login.eveonline.com/v2/oauth/token"
            (Values_Encode w uri)
            [ ("Content-Type", "application/x-www-form-urlencoded");
              ("Host", "login.eveonline.com");
              ("User-Agent",
               "Tweetfleet Slack Inviter (david@onetwentyseven.dev || TF Slack @doubled)");
              ("Authorization",
               "Basic " +:+ base64_Encode w
                 (EveClientID config +:+ ":" +:+ EveClientSecret config)) ] in
        match client_Do w req with
        | Err err =>
          (stateMap,
           writeError newResponse
             (Wrap err "failed to make post request to ccp")
             StatusInternalServerError, [req])
        | Ok resp_Body =>
          match Decode_data w resp_Body with
          | Err err =>
            (stateMap,
             writeError newResponse
               (Wrap err "unable to parse response from ccp")
               StatusInternalServerError, [req])
          | Ok data =>
            (stateMap,
             writeSuccess newResponse (Some (DData data)) StatusOK, [req])
          end
        end
      end
  end.

(** [handlePostSlackInvite] up to and with line 137, the part that only
    reads the store: the answer with which the handler returns there, or
    the body with which it goes on to line 139. *)
Definition callbackLookup (w : World) (now : Z) (r : Request)
    (stateMap : cache.Cache bool) : ResponseWriter + SlackInvite :=
  match Decode_SlackInvite w (Body r) with
  | Err err => inl (writeError newResponse err StatusBadRequest)
  | Ok body =>
    if negb (IsValid body) then
      inl (writeError newResponse
             "invalid body received. Please provide both code and state"
             StatusBadRequest)
    else
      match cache.Get stateMap now (State body) with
      | None =>
        inl (writeError newResponse "invalid state received" StatusBadRequest)
      | Some _ => inr body
      end
  end.

(** [handlePostSlackInvite] from line 139 on, for the decoded [body]: the
    state is deleted, whatever the store holds by now, and the code is
    exchanged. *)
Definition callbackExchange (w : World) (config : Config)
    (body : SlackInvite) (stateMap : cache.Cache bool)
  : cache.Cache bool * ResponseWriter * list TokenRequest :=
  let stateMap := cache.Delete stateMap (State body) in
  let uri := [("grant_type", "authorization_code"); ("code", Code body)] in
  let req :=
    mkTokenRequest "https://login.eveonline.com/v2/oauth/token"
      (Values_Encode w uri)
      [ ("Content-Type", "application/x-www-form-urlencoded");
        ("Host", "login.eveonline.com");
        ("User-Agent",
         "Tweetfleet Slack Inviter (david@onetwentyseven.dev || TF Slack @doubled)");
        ("Authorization",
         "Basic " +:+ base64_Encode w
           (EveClientID config +:+ ":" +:+ EveClientSecret config)) ] in
  match client_Do w req with
  | Err err =>
    (stateMap,
     writeError newResponse (Wrap err "failed to make post request to ccp")
       StatusInternalServerError, [req])
  | Ok resp_Body =>
    match Decode_data w resp_Body with
    | Err err =>
      (stateMap,
       writeError newResponse (Wrap err "unable to parse response from ccp")
         StatusInternalServerError, [req])
    | Ok data =>
      (stateMap, writeSuccess newResponse (Some (DData data)) StatusOK, [req])
    end
  end.

(** How a handler ends: it returns, or a failed type assertion panics. *)
Inductive ending := Returned | Panicked.

(** [handlePostSlackInviteSend]: the response, the messages posted to
    Slack, and how the handler ends. The block of [if body.Email == ""]
    writes its response and falls through to line 207. *)
Definition handlePostSlackInviteSend (w : World) (config : Config)
    (r : Request) : ResponseWriter * list Post * ending :=
  match Decode_SlackInviteSend w (Body r) with
  | Err err =>
    (writeError newResponse (Wrap err "unable to decode request body")
       StatusBadRequest, [], Returned)
  | Ok body =>
    let rw :=
      if String.eqb (Email body) "" then
        Encode (WriteHeader newResponse StatusBadRequest)
          (DInviteResponse false
             "email_invalid: please supply a valid, non-empty email address")
      else newResponse in
    match ctx_token r with
    | None =>
      (writeError rw "token not found" StatusInternalServerError, [],
       Returned)
    | Some OtherClaims => (rw, [], Panicked)
    | Some (MapClaims claims) =>
      match claims !! "name" with
      | Some (ClaimString realName) =>
        let msg :=
          realName +:+ " (" +:+ Email body
          +:+ ") has requested an invitation to Tweetfleet." in
        let post := (SlackModChannel config, MsgOptionText msg false) in
        match PostMessage w (SlackModChannel config)
                (MsgOptionText msg false) with
        | Some err =>
          (WriteHeader rw StatusInternalServerError, [post], Returned)
        | None =>
          let rw :=
            Encode rw
              (DMessage
                 "Your request has been submitted successfully. Please monitor your inbox for an invitation for the Tweetfleet Staff. Thank You") in
          (WriteHeader rw StatusOK, [post], Returned)
        end
      | _ => (WriteHeader rw StatusInternalServerError, [], Returned)
      end
    end
  end.

End server.

(** ** Serial runs of the invite endpoints against the state store *)

(** In a serial run the requests are served one after the other: a
    handler has returned before the next one starts. The server itself
    serves requests concurrently; the runs in which callbacks overlap are
    those of the module [overlap] below. *)

Module invite.

Import server.

(** One step of a serial run as the state store sees it: a request to one
    of the two invite endpoints, served from its first line to its last,
    or a sweep of the janitor. *)
Inductive request :=
| GetInvite (now : Z) (state : string)
| PostInvite (now : Z) (r : Request)
| Janitor (now : Z).

(** The state store after the step and the requests sent to the token
    endpoint by it. *)
Definition step (w : World) (config : Config) (q : request)
    (stateMap : cache.Cache bool) : cache.Cache bool * list TokenRequest :=
  match q with
  | GetInvite now state =>
    (fst (handleGetSlackInvite w config now state stateMap), [])
  | PostInvite now r =>
    let '(stateMap, _, sent) := handlePostSlackInvite w config now r stateMap in
    (stateMap, sent)
  | Janitor now => (cache.DeleteExpired stateMap now, [])
  end.


(** The step is a callback that carries [token] as its state. *)
Definition presents (w : World) (token : string) (q : request) : bool :=
  match q with
  | PostInvite _ r =>
    match Decode_SlackInvite w (Body r) with
    | Ok body => String.eqb (State body) token
    | Err _ => false
    end
  | _ => false
  end.

(** The number of callbacks carrying [token] that get as far as the token
    endpoint during the run [qs] from [stateMap]. *)
Fixpoint redemptions (w : World) (config : Config) (token : string)
    (qs : list request) (stateMap : cache.Cache bool) : nat :=
  match qs with
  | [] => 0%nat
  | q :: qs =>
    let '(stateMap', sent) := step w config q stateMap in
    ((if presents w token q && (0 <? Go.len sent)%Z then 1 else 0)
     + redemptions w config token qs stateMap')%nat
  end.

(** The requests sent to the token endpoint during the run [qs] from
    [stateMap], oldest first. *)
Fixpoint sentBy (w : World) (config : Config) (qs : list request)
    (stateMap : cache.Cache bool) : list TokenRequest :=
  match qs with
  | [] => []
  | q :: qs =>
    let '(stateMap', sent) := step w config q stateMap in
    sent ++ sentBy w config qs stateMap'
  end.

(** The state store at the end of the run [qs] from [stateMap]. *)
Definition run (w : World) (config : Config) (qs : list request)
    (stateMap : cache.Cache bool) : cache.Cache bool :=
  fold_left (fun stateMap q => fst (step w config q stateMap)) qs stateMap.

End invite.

(** ** Runs in which invite callbacks overlap *)

(** The server runs every handler in a goroutine of its own, and the store
    locks each of its operations apart. A callback can therefore be
    overtaken between its lookup of the state (line 133) and its delete
    (line 139): the machine below keeps the callbacks that have passed
    the lookup and lets them go on in any order. *)

Module overlap.

Import server.

Record machine := mkMachine {
  store : cache.Cache bool;
  waiting : list SlackInvite;       (* callbacks between line 137 and 139 *)
  sent : list TokenRequest          (* requests sent to the token endpoint *)
}.

Inductive action :=
| Issue (now : Z) (state : string)
| Arrive (now : Z) (r : Request)
| Proceed (i : nat)
| Sweep (now : Z).

(** One atomic action: an issue, a callback that runs up to its lookup,
    the [i]-th waiting callback that runs from its delete to its end, or
    a sweep of the janitor. *)
Definition act (w : World) (config : Config) (a : action) (m : machine)
  : machine :=
  match a with
  | Issue now state =>
    mkMachine (fst (handleGetSlackInvite w config now state (store m)))
      (waiting m) (sent m)
  | Arrive now r =>
    match callbackLookup w now r (store m) with
    | inl _ => m
    | inr body => mkMachine (store m) (waiting m ++ [body]) (sent m)
    end
  | Proceed i =>
    match waiting m !! i with
    | None => m
    | Some body =>
      let '(stateMap, _, out) := callbackExchange w config body (store m) in
      mkMachine stateMap (delete i (waiting m)) (sent m ++ out)
    end
  | Sweep now =>
    mkMachine (cache.DeleteExpired (store m) now) (waiting m) (sent m)
  end.

Definition exec (w : World) (config : Config) (acts : list action)
    (m : machine) : machine :=
  fold_left (fun m a => act w config a m) acts m.


(** A serial run as a schedule: every callback goes on at once. *)
Definition serial (q : invite.request) : list action :=
  match q with
  | invite.GetInvite now state => [Issue now state]
  | invite.PostInvite now r => [Arrive now r; Proceed 0]
  | invite.Janitor now => [Sweep now]
  end.

End overlap.

(** ** The health percentage as the specification words it *)

(** [1 - (matchCount / totalCount) * 100] when [totalCount > 0], else [0]. *)
Definition healthPercentage_spec (matchCount totalCount : Z) : float :=
  if 0 <? totalCount then
    (1 - (Go.float64 matchCount / Go.float64 totalCount) * 100)%float
  else 0%float.

(** ** Concrete collaborators, to run the handlers on *)

Module sample.

Import eb2 nslack.

(** ASCII upper case, enough for HTTP methods. *)
Definition upper_ascii (c : ascii) : ascii :=
  let n := nat_of_ascii c in
  if (97 <=? n)%nat && (n <=? 122)%nat then ascii_of_nat (n - 32) else c.

Fixpoint upper (s : string) : string :=
  match s with
  | EmptyString => EmptyString
  | String c s => String (upper_ascii c) (upper s)
  end.

(** An upstream that answers every fetch of the route statuses with
    [fetched]. *)
Definition upstream (fetched : result (list (option ESIStatus)))
  : slack.World :=
  slack.mkWorld
    (fun _ => Ok (slack.mkResponse 200 (Go.NewBuffer [])))
    (fun _ => fetched)
    (fun _ => Err "unexpected end of JSON input")
    (fun _ => "")
    (fun s => s)
    upper
    (fun _ => "").

(** An upstream that cannot be reached. *)
Definition unreachable : slack.World :=
  slack.mkWorld
    (fun _ => Err "dial tcp: i/o timeout")
    (fun _ => Ok [])
    (fun _ => Err "unexpected end of JSON input")
    (fun _ => "")
    (fun s => s)
    upper
    (fun _ => "").

Definition red (route : string) : ESIStatus := mkESIStatus "get" route "red".
Definition green (route : string) : ESIStatus :=
  mkESIStatus "get" route "green".

Definition yellow : ESIStatus :=
  mkESIStatus "post" "/ui/autopilot/waypoint/" "yellow".

(** Sixty routes, all red. *)
Definition sixty : list ESIStatus := repeat (red "/status/") 60.

(** A server whose request bodies decode to [invite] and [send], whose
    verifier accepts every request, and whose Slack client posts without
    error. *)
Definition gateway (invite : result server.SlackInvite)
    (send : result server.SlackInviteSend) : server.World :=
  server.mkWorld unit
    (fun _ _ => Ok tt)
    (fun v _ => Ok v)
    (fun _ => None)
    (fun _ => Err "unexpected end of JSON input")
    (fun _ => Err "unexpected end of JSON input")
    (fun _ => invite)
    (fun _ => send)
    (fun _ => Ok (server.JObject []))
    (fun _ => "")
    (fun s => s)
    (fun _ => Ok (Go.NewBuffer []))
    (fun _ _ => None).

Definition config : server.Config :=
  server.mkConfig "secret" "C-MODS" "https://example.org/callback" "id" "key".

(** A request without identity and one that carries the name Alice. *)
Definition anonymous : server.Request :=
  server.mkRequest ∅ (Go.NewBuffer []) None.

Definition alice : server.Request :=
  server.mkRequest ∅ (Go.NewBuffer [])
    (Some (server.MapClaims {[ "name" := server.ClaimString "Alice" ]})).

(** A run on which the state issued at time 0 is presented three times,
    with a sweep and another issue in between. *)
Definition replayed : list invite.request :=
  [ invite.PostInvite 1 anonymous;
    invite.Janitor 2;
    invite.PostInvite 3 anonymous;
    invite.GetInvite 4 "other";
    invite.PostInvite 5 anonymous ].

Definition presenter : server.World :=
  gateway (Ok (server.mkSlackInvite "tok" "code")) (Err "EOF").

(** A server whose every webhook body parses to [event] and unmarshals to
    the challenge [challenge], and whose verifier accepts a body exactly
    when it is not empty. *)
Definition webhook (event : server.EventsAPIEvent) (challenge : string)
  : server.World :=
  server.mkWorld (list Byte.byte)
    (fun _ _ => Ok [])
    (fun _ body => Ok body)
    (fun seen => match seen with
                 | [] => Some "Expected signing signature"
                 | _ => None
                 end)
    (fun _ => Ok event)
    (fun _ => Ok challenge)
    (fun _ => Err "EOF")
    (fun _ => Err "EOF")
    (fun _ => Err "EOF")
    (fun _ => "")
    (fun s => s)
    (fun _ => Err "connection refused")
    (fun _ _ => None).

(** A signed request with the body [{}] and one with no body at all. *)
Definition signed : server.Request :=
  server.mkRequest ∅ (Go.NewBuffer [Byte.x7b; Byte.x7d]) None.

Definition unsigned : server.Request :=
  server.mkRequest ∅ (Go.NewBuffer []) None.

(** A token endpoint that cannot be reached. *)
Definition offline : server.World :=
  server.mkWorld unit
    (fun _ _ => Ok tt)
    (fun v _ => Ok v)
    (fun _ => None)
    (fun _ => Err "EOF")
    (fun _ => Err "EOF")
    (fun _ => Ok (server.mkSlackInvite "tok" "code"))
    (fun _ => Ok (server.mkSlackInviteSend "alice@example.org"))
    (fun _ => Err "EOF")
    (fun _ => "")
    (fun s => s)
    (fun _ => Err "connection refused")
    (fun _ _ => Some "channel_not_found").

End sample.

(** * Properties *)

(** ** The cache *)

Section CacheFacts.

Context {V : Type}.
Implicit Types (c : cache.Cache V) (k : string) (now : Z).

Lemma Get_absent c now k :
  cache.items c !! k = None -> cache.Get c now k = None.
Proof. unfold cache.Get. intros ->. reflexivity. Qed.

Lemma Get_Flush c now k : cache.Get (cache.Flush c) now k = None.
Proof. apply Get_absent. apply lookup_empty. Qed.

Lemma Get_Delete c now k : cache.Get (cache.Delete c k) now k = None.
Proof. apply Get_absent. apply lookup_delete_eq. Qed.



(** An item stored for the default time is found until that time is over. *)
Lemma Get_Set_fresh c t0 now k x :
  now <= t0 + cache.defaultExpiration c ->
  cache.Get (cache.Set_ c t0 k x 0) now k = Some x.
Proof.
  intros Hle. unfold cache.Get, cache.Set_, cache.expired. cbn.
  rewrite lookup_insert_eq. cbn.
  destruct (0 <? cache.defaultExpiration c) eqn:Hd; cbn; [| reflexivity].
  destruct (0 <? t0 + cache.defaultExpiration c); cbn; [| reflexivity].
  destruct (Z.ltb_spec (t0 + cache.defaultExpiration c) now); [lia | reflexivity].
Qed.

End CacheFacts.

(** ** The CSRF state of the invite flow *)

Section InviteFacts.

Import server invite.

Context (w : World) (config : Config).
Implicit Types (stateMap : cache.Cache bool) (r : Request) (now : Z).

Lemma redeem_found now state stateMap :
  snd (redeem now state stateMap) = true ->
  is_Some (cache.Get stateMap now state) /\
  fst (redeem now state stateMap) = cache.Delete stateMap state.
Proof.
  unfold redeem. destruct (cache.Get stateMap now state); cbn.
  - intros _. split; [eauto | reflexivity].
  - discriminate.
Qed.

Lemma redeem_not_found now state stateMap :
  snd (redeem now state stateMap) = false ->
  cache.Get stateMap now state = None /\
  fst (redeem now state stateMap) = stateMap.
Proof.
  unfold redeem. destruct (cache.Get stateMap now state); cbn.
  - discriminate.
  - intros _. split; reflexivity.
Qed.

(** The callback handler either rejects the request with status 400,
    sends nothing and leaves the store alone, or it has decoded a valid
    body whose state it found, deleted the state and sent one request. *)
Lemma handlePostSlackInvite_cases now r stateMap :
  let '(stateMap', rw, sent) :=
    handlePostSlackInvite w config now r stateMap in
  (sent = [] /\ stateMap' = stateMap /\ status rw = Some StatusBadRequest /\
   match Decode_SlackInvite w (Body r) with
   | Ok body =>
     IsValid body = false \/ cache.Get stateMap now (State body) = None
   | Err _ => True
   end) \/
  (exists body req,
     Decode_SlackInvite w (Body r) = Ok body /\ IsValid body = true /\
     is_Some (cache.Get stateMap now (State body)) /\
     stateMap' = cache.Delete stateMap (State body) /\ sent = [req]).
Proof.
  unfold handlePostSlackInvite.
  destruct (Decode_SlackInvite w (Body r)) as [body | err]; [| left; auto].
  destruct (IsValid body) eqn:Hvalid; cbn [negb]; [| left; auto 6].
  destruct (redeem now (State body) stateMap) as [stateMap' found] eqn:Hredeem.
  destruct found.
  - pose proof (redeem_found now (State body) stateMap) as Hfound.
    rewrite Hredeem in Hfound. cbn in Hfound.
    destruct (Hfound eq_refl) as [Hsome ->].
    destruct (client_Do w _) as [resp_Body | err];
      [destruct (Decode_data w resp_Body) |]; right; eauto 10.
  - pose proof (redeem_not_found now (State body) stateMap) as Hmiss.
    rewrite Hredeem in Hmiss. cbn in Hmiss.
    destruct (Hmiss eq_refl) as [Hnone ->].
    left. auto 6.
Qed.





End InviteFacts.

(** The handler is its lookup followed at once by its exchange. *)
Lemma handlePostSlackInvite_split
    (w : server.World) (config : server.Config) (now : Z)
    (r : server.Request) (stateMap : cache.Cache bool) :
  server.handlePostSlackInvite w config now r stateMap =
  match server.callbackLookup w now r stateMap with
  | inl rw => (stateMap, rw, [])
  | inr body => server.callbackExchange w config body stateMap
  end.
Proof.
  unfold server.handlePostSlackInvite, server.callbackLookup,
    server.callbackExchange, server.redeem.
  destruct (server.Decode_SlackInvite w (server.Body r)) as [body | err];
    [| reflexivity].
  destruct (negb (server.IsValid body)); [reflexivity |].
  destruct (cache.Get stateMap now (server.State body)); reflexivity.
Qed.

(** A serial run is the schedule in which every callback goes on at once:
    the machine ends with the store of the run, no callback waiting, and
    the requests of the run sent. *)
Lemma serial_run_is_a_schedule
    (w : server.World) (config : server.Config) (qs : list invite.request) :
  forall stateMap out,
    overlap.exec w config (concat (map overlap.serial qs))
      (overlap.mkMachine stateMap [] out)
    = overlap.mkMachine (invite.run w config qs stateMap) []
        (out ++ invite.sentBy w config qs stateMap).
Proof.
  induction qs as [| q qs IH]; intros stateMap out.
  - cbn. by rewrite app_nil_r.
  - cbn [map concat]. unfold overlap.exec in *. rewrite fold_left_app.
    assert (Hstep :
      fold_left (fun m a => overlap.act w config a m) (overlap.serial q)
        (overlap.mkMachine stateMap [] out)
      = overlap.mkMachine (fst (invite.step w config q stateMap)) []
          (out ++ snd (invite.step w config q stateMap))).
    { destruct q as [now state | now r | now]; cbn.
      - by rewrite app_nil_r.
      - rewrite handlePostSlackInvite_split.
        destruct (server.callbackLookup w now r stateMap) as [rw | body]; cbn.
        + by rewrite app_nil_r.
        + destruct (server.callbackExchange w config body stateMap)
            as [[stateMap' rw] sent]. reflexivity.
      - by rewrite app_nil_r. }
    rewrite Hstep, IH. unfold invite.run. cbn [fold_left invite.sentBy].
    destruct (invite.step w config q stateMap) as [stateMap' sent].
    cbn [fst snd]. by rewrite app_assoc.
Qed.




(** On that run the first presentation is the one that gets through. *)
Example csrf_state_replayed_once :
  invite.redemptions sample.presenter sample.config "tok" sample.replayed
    (fst (server.handleGetSlackInvite sample.presenter sample.config 0 "tok"
            server.stateMap_init)) = 1%nat.
Proof. vm_compute. reflexivity. Qed.

(** ** The status cache *)

Section StatusCacheFacts.

Import eb2 nslack slack.

Context (w : World).
Implicit Types (statusCache : cache.Cache (list (option ESIStatus))).
Implicit Types (now : Z).

(** A failed fetch returns its error before the cache is written. *)
Lemma fetchRouteStatuses_fails now version statusCache err :
  fetch_fails w version err ->
  fetchRouteStatuses w now version statusCache = (statusCache, Err err).
Proof.
  unfold fetchRouteStatuses.
  intros [Hget | resp data Hget Hread | resp data Hget Hread Hdec];
    rewrite Hget; [reflexivity | |]; rewrite Hread; [reflexivity |].
  rewrite Hdec. reflexivity.
Qed.

(** A fetch that succeeds has stored the routes under the version. *)
Lemma fetchRouteStatuses_succeeds now version statusCache routes :
  snd (fetchRouteStatuses w now version statusCache) = Ok routes ->
  fetchRouteStatuses w now version statusCache =
  (cache.Set_ statusCache now version routes 0, Ok routes).
Proof.
  unfold fetchRouteStatuses.
  destruct (http_Get w _) as [resp | err]; [| discriminate].
  destruct (Go.ReadAll (Body resp)) as [data [err |]]; [discriminate |].
  destruct (Unmarshal_routes w data) as [routes' | err]; [| discriminate].
  cbn. intros [= ->]. reflexivity.
Qed.

(** A fetch that fails leaves the cache as it was. *)
Lemma fetchRouteStatuses_error now version statusCache err :
  snd (fetchRouteStatuses w now version statusCache) = Err err ->
  fst (fetchRouteStatuses w now version statusCache) = statusCache.
Proof.
  unfold fetchRouteStatuses.
  destruct (http_Get w _) as [resp | err0]; [| reflexivity].
  destruct (Go.ReadAll (Body resp)) as [data [err0 |]]; [reflexivity |].
  destruct (Unmarshal_routes w data) as [routes | err0];
    [discriminate | reflexivity].
Qed.

Lemma checkCache_miss now version statusCache :
  cache.Get statusCache now version = None ->
  checkCache now version statusCache = ([], false).
Proof. unfold checkCache. intros ->. reflexivity. Qed.

Lemma statusAttachments_nil :
  statusAttachments w [] = Some [mkAttachment "" "" "" ":ok_hand:" []].
Proof. reflexivity. Qed.

End StatusCacheFacts.

(** C2. A successful refresh for one variant flushes the whole status
    cache and stores only the new snapshot, under that variant: afterwards
    the cache holds exactly one entry, and a lookup of any other variant
    finds nothing at any time, whatever the cache held before. The route
    status handler runs this refresh whenever its lookup misses. *)
Theorem refresh_flushes_whole_cache
    (w : slack.World) (now : Z) (v1 : string)
    (statusCache : cache.Cache (list (option eb2.ESIStatus)))
    (routes : list (option eb2.ESIStatus)) :
  snd (slack.fetchRouteStatuses w now v1 statusCache) = Ok routes ->
  let statusCache' := fst (slack.refresh w now v1 statusCache) in
  snd (slack.refresh w now v1 statusCache) = None /\
  (exists e, cache.items statusCache' = {[ v1 := cache.mkItem routes e ]}) /\
  (forall v2 now', v2 <> v1 -> cache.Get statusCache' now' v2 = None) /\
  (forall event,
     slack.requestedVersion event = v1 ->
     cache.Get statusCache now v1 = None ->
     fst (fst (slack.makeESIStatusMessage w now event statusCache))
     = statusCache').
Proof.
  intros Hfetch statusCache'.
  pose proof (fetchRouteStatuses_succeeds w now v1 statusCache routes Hfetch)
    as Hrun.
  assert (Hrefresh : slack.refresh w now v1 statusCache =
                     (cache.Set_ (cache.Flush
                        (cache.Set_ statusCache now v1 routes 0))
                        now v1 routes 0, None)).
  { unfold slack.refresh. rewrite Hrun. reflexivity. }
  subst statusCache'. rewrite Hrefresh. cbn [fst snd].
  split; [reflexivity |]. split; [| split].
  - eexists. cbn. apply insert_empty.
  - intros v2 now' Hne. apply Get_absent. cbn.
    rewrite lookup_insert_ne; [apply lookup_empty | congruence].
  - intros event Hversion Hmiss. unfold slack.makeESIStatusMessage.
    rewrite Hversion, (checkCache_miss now v1 statusCache Hmiss).
    cbn [negb]. rewrite Hrefresh. reflexivity.
Qed.

Lemma refresh_evicts_cached_variant :
  let statusCache :=
    cache.Set_ slack.statusCache_init 0 "v2" [Some (sample.green "/alliances/")] 0 in
  let w := sample.upstream (Ok [Some (sample.red "/status/")]) in
  cache.Get statusCache 1 "v2" = Some [Some (sample.green "/alliances/")] /\
  cache.Get (fst (slack.refresh w 1 "v1" statusCache)) 1 "v2" = None.
Proof.
  split; [reflexivity |].
  apply (refresh_flushes_whole_cache
           (sample.upstream (Ok [Some (sample.red "/status/")])) 1 "v1"
           (cache.Set_ slack.statusCache_init 0 "v2"
              [Some (sample.green "/alliances/")] 0)
           [Some (sample.red "/status/")]);
    [reflexivity | discriminate].
Defined.

(** C3. When the lookup of the route status handler misses and the fetch
    succeeds, the reply is built from the empty route list that the lookup
    returned, not from the fetched routes, which are only written to the
    cache: the message posted is the single all-clear attachment, whatever
    the statuses of the fetched routes, and the handler returns. *)
Theorem fetched_routes_are_not_reported
    (w : slack.World) (now : Z) (event : slack.Event)
    (statusCache : cache.Cache (list (option eb2.ESIStatus)))
    (routes : list (option eb2.ESIStatus)) :
  cache.Get statusCache now (slack.requestedVersion event) = None ->
  snd (slack.fetchRouteStatuses w now (slack.requestedVersion event)
         statusCache) = Ok routes ->
  snd (fst (slack.makeESIStatusMessage w now event statusCache)) =
  [ (slack.origin_Channel event,
     nslack.MsgOptionAttachments
       [nslack.mkAttachment "" "" "" ":ok_hand:" []]) ] /\
  snd (slack.makeESIStatusMessage w now event statusCache) = slack.Returned.
Proof.
  intros Hmiss Hfetch. unfold slack.makeESIStatusMessage.
  rewrite (checkCache_miss now _ statusCache Hmiss). cbn [negb].
  unfold slack.refresh.
  rewrite (fetchRouteStatuses_succeeds w now _ statusCache routes Hfetch).
  split; reflexivity.
Qed.

Lemma sixty_red_routes_reported_all_clear :
  snd (fst (slack.makeESIStatusMessage
              (sample.upstream (Ok (map Some sample.sixty))) 0
              (slack.mkEvent ∅ "C-ESI") slack.statusCache_init)) =
  [ ("C-ESI",
     nslack.MsgOptionAttachments
       [nslack.mkAttachment "" "" "" ":ok_hand:" []]) ] /\
  snd (slack.makeESIStatusMessage
         (sample.upstream (Ok (map Some sample.sixty))) 0
         (slack.mkEvent ∅ "C-ESI") slack.statusCache_init) = slack.Returned.
Proof.
  apply (fetched_routes_are_not_reported
           (sample.upstream (Ok (map Some sample.sixty))) 0
           (slack.mkEvent ∅ "C-ESI") slack.statusCache_init
           (map Some sample.sixty));
    reflexivity.
Defined.

(** C6. When the fetch of a refresh fails, in the request, in the reading
    of the body or in the decoding, the refresh returns the error and the
    status cache is the one it started from; the handler then posts the
    error once and leaves the cache as it was. *)
Theorem failed_fetch_leaves_cache_untouched
    (w : slack.World) (now : Z) (version : string)
    (statusCache : cache.Cache (list (option eb2.ESIStatus)))
    (err : string) :
  slack.fetch_fails w version err ->
  slack.refresh w now version statusCache = (statusCache, Some err) /\
  forall event,
    slack.requestedVersion event = version ->
    cache.Get statusCache now version = None ->
    slack.makeESIStatusMessage w now event statusCache =
    (statusCache,
     [(slack.origin_Channel event, nslack.MsgOptionText err true)],
     slack.Returned).
Proof.
  intros Hfails.
  assert (Hrefresh : slack.refresh w now version statusCache =
                     (statusCache, Some err)).
  { unfold slack.refresh.
    rewrite (fetchRouteStatuses_fails w now version statusCache err Hfails).
    reflexivity. }
  split; [exact Hrefresh |].
  intros event Hversion Hmiss. unfold slack.makeESIStatusMessage.
  rewrite Hversion, (checkCache_miss now version statusCache Hmiss).
  cbn [negb]. rewrite Hrefresh. reflexivity.
Qed.

Lemma unreachable_upstream_keeps_cache :
  let statusCache :=
    cache.Set_ slack.statusCache_init 0 "v2" [Some (sample.green "/alliances/")] 0 in
  slack.refresh sample.unreachable 1 "latest" statusCache =
  (statusCache, Some "dial tcp: i/o timeout").
Proof.
  apply (failed_fetch_leaves_cache_untouched sample.unreachable 1 "latest"
           (cache.Set_ slack.statusCache_init 0 "v2"
              [Some (sample.green "/alliances/")] 0) "dial tcp: i/o timeout").
  apply slack.network_error. reflexivity.
Defined.

(** ** The health percentage *)

(** With three red routes out of seven the percentage is not [-29]. *)
Lemma three_of_seven_is_not_minus_29 :
  slack.percentage 3 7 <> (-29)%float.
Proof.
  intros Heq.
  assert (Hb : PrimFloat.eqb (slack.percentage 3 7) (-29)%float = true)
    by (rewrite Heq; reflexivity).
  vm_compute in Hb. discriminate.
Qed.

(** C4, amended. For a match count [m] and a total [n] that is not
    negative, the health percentage is [1 - (m / n) * 100] in binary64
    arithmetic when [n > 0] and [0] when [n = 0]; three matches out of
    seven give [-41.857142857142854], three out of ten give [-29]. *)
Theorem percentage_is_the_preserved_formula (m n : Z) :
  0 <= n ->
  slack.percentage m n = healthPercentage_spec m n /\
  slack.percentage 3 7 = (-0x1.4edb6db6db6dbp+5)%float /\
  slack.percentage 3 10 = (-29)%float.
Proof.
  intros Hn. split; [| split; reflexivity].
  unfold slack.percentage, healthPercentage_spec.
  destruct (Z.eqb_spec n 0) as [-> | Hne]; [reflexivity |].
  destruct (Z.ltb_spec 0 n); [reflexivity | lia].
Qed.

Lemma percentage_of_three_in_ten :
  slack.percentage 3 10 = healthPercentage_spec 3 10 /\
  slack.percentage 3 7 = (-0x1.4edb6db6db6dbp+5)%float /\
  slack.percentage 3 10 = (-29)%float.
Proof. apply (percentage_is_the_preserved_formula 3 10). lia. Defined.

(** ** The rendering of a route list *)

Section RouteLines.

Import eb2 slack.

Context (w : World).

(** The loop entered with the counter at [p]: the lines of the routes up
    to the one that takes the counter to 51, and after that one a line
    with the number of routes from that one on. *)
Lemma routeLines_from (routes : list ESIStatus) : forall p,
  0 <= p <= 50 ->
  routeLines w p routes =
  map (routeLine w) (take (Z.to_nat (51 - p)) routes) ++
  (if 51 - p <=? Go.len routes
   then [Go.fmt_d (Go.len routes - (50 - p))] else []).
Proof.
  induction routes as [| route rest IH]; intros p Hp.
  - rewrite take_nil. change (Go.len (@nil ESIStatus)) with 0.
    destruct (Z.leb_spec (51 - p) 0); [lia | reflexivity].
  - cbn [routeLines].
    assert (Hk : Z.to_nat (51 - p) = S (Z.to_nat (50 - p))) by lia.
    assert (Hlen : Go.len (route :: rest) = Go.len rest + 1)
      by (unfold Go.len; cbn [length]; lia).
    rewrite Hk, Hlen. cbn [take map app].
    destruct (Z.ltb_spec 50 (p + 1)) as [Hlast | Hmore].
    + assert (p = 50) as -> by lia.
      change (Z.to_nat (50 - 50)) with 0%nat. rewrite take_0. cbn [map app].
      destruct (Z.leb_spec (51 - 50) (Go.len rest + 1)) as [_ | Hlt].
      * do 3 f_equal. lia.
      * unfold Go.len in Hlt. lia.
    + rewrite (IH (p + 1)) by lia.
      replace (51 - (p + 1)) with (50 - p) by lia.
      do 2 f_equal.
      destruct (Z.leb_spec (50 - p) (Go.len rest)),
               (Z.leb_spec (51 - p) (Go.len rest + 1)); try lia;
        [| reflexivity].
      do 2 f_equal. lia.
Qed.

(** The lines of a whole list. *)
Lemma routeLines_whole (routes : list ESIStatus) :
  routeLines w 0 routes =
  map (routeLine w) (take 51 routes) ++
  (if 51 <=? Go.len routes then [Go.fmt_d (Go.len routes - 50)] else []).
Proof. rewrite (routeLines_from routes 0) by lia. reflexivity. Qed.

End RouteLines.

(** Sixty routes are rendered in 52 lines: the 51st is the line of the
    51st route, and the marker, the 52nd, reads 10. *)
Lemma sixty_routes_render_52_lines :
  let lines := slack.routeLines (sample.upstream (Ok [])) 0 sample.sixty in
  length lines = 52%nat /\
  lines !! 50%nat = Some "GET /status/" /\
  lines !! 51%nat = Some "10" /\
  length lines <> 51%nat.
Proof. vm_compute. repeat split; discriminate. Qed.

(** C5, amended. The lines that the rendering helper joins are the text
    lines of the first 51 routes, followed by at most one marker line: by
    none for a list of up to 50 routes, by exactly one for a list of more
    than 51 routes. A list of 60 routes is rendered in 52 lines, the 51
    route lines and the marker. *)
Theorem routes_rendering_truncates
    (w : slack.World) (routes : list eb2.ESIStatus) :
  exists marker : list string,
    slack.routeLines w 0 routes =
    map (slack.routeLine w) (take 51 routes) ++ marker /\
    (length marker <= 1)%nat /\
    (Go.len routes <= 50 -> marker = []) /\
    (51 < Go.len routes -> length marker = 1%nat) /\
    (Go.len routes = 60 -> length (slack.routeLines w 0 routes) = 52%nat).
Proof.
  rewrite routeLines_whole. eexists. split; [reflexivity |].
  unfold Go.len.
  destruct (Z.leb_spec 51 (Z.of_nat (length routes))) as [Hge | Hlt].
  - repeat split; cbn [length]; try lia.
    intros Hlen. rewrite length_app, length_map, length_take. cbn [length]. lia.
  - repeat split; cbn [length]; try lia.
Qed.

Lemma sixty_routes_truncated :
  exists marker : list string,
    slack.routeLines (sample.upstream (Ok [])) 0 sample.sixty =
    map (slack.routeLine (sample.upstream (Ok []))) (take 51 sample.sixty)
    ++ marker /\
    (length marker <= 1)%nat /\
    (Go.len sample.sixty <= 50 -> marker = []) /\
    (51 < Go.len sample.sixty -> length marker = 1%nat) /\
    (Go.len sample.sixty = 60 ->
     length (slack.routeLines (sample.upstream (Ok [])) 0 sample.sixty)
     = 52%nat).
Proof.
  exact (routes_rendering_truncates (sample.upstream (Ok [])) sample.sixty).
Defined.

(** ** The running time of the server *)

Section RunTime.

Import GoTime.





Lemma Since_in_range (now from : Z) :
  minDuration <= now - from <= maxDuration -> Since now from = now - from.
Proof.
  intros Hr. unfold Since, Sub. cbv zeta.
  destruct (Z.ltb_spec (now - from) minDuration); [lia |].
  destruct (Z.ltb_spec maxDuration (now - from)); [lia | reflexivity].
Qed.

End RunTime.



(** ** The webhook verifier and the invite handlers *)

(** C7. When verification runs to completion, that is when the verifier
    was created, the body was read and handed to it, and [Ensure] gave
    its verdict, the request carries a body that delivers the bytes
    received, without error, and its headers and context are unchanged;
    the result is the verdict of [Ensure]. *)
Theorem verified_request_keeps_its_body
    (w : server.World) (req : server.Request) (secret : string)
    (verifier verifier' : server.SecretsVerifier w) (body : list Byte.byte) :
  server.NewSecretsVerifier w (server.Header req) secret = Ok verifier ->
  Go.ReadAll (server.Body req) = (body, None) ->
  server.verifier_Write w verifier body = Ok verifier' ->
  let '(req', res) := server.verifySlackReqeust w req secret in
  Go.ReadAll (server.Body req') = (body, None) /\
  server.Header req' = server.Header req /\
  server.ctx_token req' = server.ctx_token req /\
  res = match server.verifier_Ensure w verifier' with
        | Some err => Some (server.Wrap err "failed to ensure the verifier")
        | None => None
        end.
Proof.
  intros Hnew Hread Hwrite. unfold server.verifySlackReqeust.
  rewrite Hnew, Hread, Hwrite.
  destruct (server.verifier_Ensure w verifier'); repeat split.
Qed.

Lemma verified_webhook_keeps_its_body :
  let w := sample.gateway (Err "EOF") (Err "EOF") in
  let req := server.mkRequest ∅ (Go.NewBuffer [Byte.x7b; Byte.x7d]) None in
  let '(req', res) := server.verifySlackReqeust w req "secret" in
  Go.ReadAll (server.Body req') = ([Byte.x7b; Byte.x7d], None) /\
  server.Header req' = server.Header req /\
  server.ctx_token req' = server.ctx_token req /\
  res = match server.verifier_Ensure w tt with
        | Some err => Some (server.Wrap err "failed to ensure the verifier")
        | None => None
        end.
Proof.
  apply (verified_request_keeps_its_body
           (sample.gateway (Err "EOF") (Err "EOF"))
           (server.mkRequest ∅ (Go.NewBuffer [Byte.x7b; Byte.x7d]) None)
           "secret" tt tt [Byte.x7b; Byte.x7d]); reflexivity.
Defined.

(** C8. The invite callback answers with status 400 and sends nothing to
    the token endpoint when the state is empty, when the code is empty, or
    when the state is not found in the store; it sends its request to the
    token endpoint exactly when the state and the code are not empty and
    the state is found. *)
Theorem invite_callback_checks_before_exchange
    (w : server.World) (config : server.Config) (now : Z)
    (r : server.Request) (stateMap : cache.Cache bool)
    (body : server.SlackInvite) :
  server.Decode_SlackInvite w (server.Body r) = Ok body ->
  let '(_, rw, sent) := server.handlePostSlackInvite w config now r stateMap in
  (server.State body = "" \/ server.Code body = "" \/
   cache.Get stateMap now (server.State body) = None ->
   server.status rw = Some 400 /\ sent = []) /\
  (sent <> [] <->
   server.State body <> "" /\ server.Code body <> "" /\
   is_Some (cache.Get stateMap now (server.State body))).
Proof.
  intros Hdec.
  pose proof (handlePostSlackInvite_cases w config now r stateMap) as Hcases.
  destruct (server.handlePostSlackInvite w config now r stateMap)
    as [[stateMap' rw] sent].
  rewrite Hdec in Hcases.
  assert (Hvalid : server.IsValid body = true <->
                   server.State body <> "" /\ server.Code body <> "").
  { unfold server.IsValid. rewrite andb_true_iff, !negb_true_iff.
    by rewrite !String.eqb_neq. }
  destruct Hcases as [(-> & _ & Hstatus & Hwhy)
                     | (body' & req & [= <-] & Hok & Hsome & _ & ->)].
  - split; [intros _; split; [exact Hstatus | reflexivity] |].
    split; [congruence |]. intros (Hs & Hc & Hfound). exfalso.
    destruct Hwhy as [Hinv | Hmiss].
    + assert (server.IsValid body = true) by (apply Hvalid; auto). congruence.
    + rewrite Hmiss in Hfound. by destruct Hfound.
  - apply Hvalid in Hok as [Hs Hc]. split.
    + intros [He | [He | He]]; [congruence | congruence |].
      rewrite He in Hsome. by destruct Hsome.
    + split; [auto | discriminate].
Qed.

Lemma invite_callback_rejects_unknown_state :
  let '(_, rw, sent) :=
    server.handlePostSlackInvite sample.presenter sample.config 0
      sample.anonymous server.stateMap_init in
  (server.State (server.mkSlackInvite "tok" "code") = "" \/
   server.Code (server.mkSlackInvite "tok" "code") = "" \/
   cache.Get server.stateMap_init 0
     (server.State (server.mkSlackInvite "tok" "code")) = None ->
   server.status rw = Some 400 /\ sent = []) /\
  (sent <> [] <->
   server.State (server.mkSlackInvite "tok" "code") <> "" /\
   server.Code (server.mkSlackInvite "tok" "code") <> "" /\
   is_Some (cache.Get server.stateMap_init 0
              (server.State (server.mkSlackInvite "tok" "code")))).
Proof.
  apply (invite_callback_checks_before_exchange sample.presenter
           sample.config 0 sample.anonymous server.stateMap_init
           (server.mkSlackInvite "tok" "code")).
  reflexivity.
Defined.

(** C9, on the code. A request to the invite-send endpoint with an empty
    email, from a caller named Alice, is answered with status 400 and the
    error document; the handler then goes on, posts the notification to
    the moderation channel and writes the confirmation after the error. *)
Example invite_send_with_empty_email_goes_on :
  server.handlePostSlackInviteSend
    (sample.gateway (Err "EOF") (Ok (server.mkSlackInviteSend "")))
    sample.config sample.alice =
  (server.mkResponseWriter (Some 400)
     [ server.DInviteResponse false
         "email_invalid: please supply a valid, non-empty email address";
       server.DMessage
         "Your request has been submitted successfully. Please monitor your inbox for an invitation for the Tweetfleet Staff. Thank You" ],
   [ ("C-MODS",
      nslack.MsgOptionText
        "Alice () has requested an invitation to Tweetfleet." false) ],
   server.Returned).
Proof. vm_compute. reflexivity. Qed.

(** The same for every caller whose token carries a name and every Slack
    client that accepts the post: the status stays 400, and the
    notification, with an empty address between the brackets, is posted. *)
Lemma invite_send_empty_email_falls_through
    (w : server.World) (config : server.Config) (r : server.Request)
    (claims : gmap string server.ClaimValue) (realName : string) :
  server.Decode_SlackInviteSend w (server.Body r)
  = Ok (server.mkSlackInviteSend "") ->
  server.ctx_token r = Some (server.MapClaims claims) ->
  claims !! "name" = Some (server.ClaimString realName) ->
  let '(rw, posts, _) := server.handlePostSlackInviteSend w config r in
  server.status rw = Some 400 /\
  posts = [ (server.SlackModChannel config,
             nslack.MsgOptionText
               (realName +:+ " () has requested an invitation to Tweetfleet.")
               false) ].
Proof.
  intros Hdec Htoken Hname. unfold server.handlePostSlackInviteSend.
  rewrite Hdec, Htoken, Hname. cbn [server.Email String.eqb].
  destruct (server.PostMessage w _ _); split; reflexivity.
Qed.

(** * Further properties of the two files *)

(** ** The webhook endpoint *)

Section WebhookFacts.

Import server.

Context (w : World).

(** Verification returns [nil] only on its last line. *)
Lemma verifySlackReqeust_accepts (req : Request) (secret : string) :
  snd (verifySlackReqeust w req secret) = None ->
  exists verifier verifier' body,
    NewSecretsVerifier w (Header req) secret = Ok verifier /\
    Go.ReadAll (Body req) = (body, None) /\
    verifier_Write w verifier body = Ok verifier' /\
    verifier_Ensure w verifier' = None /\
    fst (verifySlackReqeust w req secret) =
    mkRequest (Header req) (Go.NewBuffer body) (ctx_token req).
Proof.
  unfold verifySlackReqeust.
  destruct (NewSecretsVerifier w (Header req) secret) as [verifier | err];
    [| discriminate].
  destruct (Go.ReadAll (Body req)) as [body [err |]]; [discriminate |].
  destruct (verifier_Write w verifier body) as [verifier' | err] eqn:Hwrite;
    [| discriminate].
  destruct (verifier_Ensure w verifier') as [err |] eqn:Hensure;
    [discriminate |].
  intros _. exists verifier, verifier', body.
  repeat split; assumption || reflexivity.
Qed.

End WebhookFacts.

(** X1. A request that verification accepts was checked on exactly the
    bytes it goes on to deliver: the verifier was created from its
    headers, was written the whole body, accepted it, and the request
    afterwards delivers those same bytes without error. *)
Theorem accepted_request_delivers_the_verified_bytes
    (w : server.World) (req : server.Request) (secret : string) :
  snd (server.verifySlackReqeust w req secret) = None ->
  exists verifier verifier' body,
    server.NewSecretsVerifier w (server.Header req) secret = Ok verifier /\
    server.verifier_Write w verifier body = Ok verifier' /\
    server.verifier_Ensure w verifier' = None /\
    Go.ReadAll (server.Body req) = (body, None) /\
    Go.ReadAll (server.Body (fst (server.verifySlackReqeust w req secret)))
    = (body, None).
Proof.
  intros Hok.
  destruct (verifySlackReqeust_accepts w req secret Hok)
    as (verifier & verifier' & body & Hnew & Hread & Hwrite & Hensure & ->).
  exists verifier, verifier', body. repeat split; assumption || reflexivity.
Qed.

Lemma signed_request_delivers_the_verified_bytes :
  exists verifier verifier' body,
    server.NewSecretsVerifier (sample.webhook (server.mkEvent "" server.OtherInnerEvent) "")
      (server.Header sample.signed) "secret" = Ok verifier /\
    server.verifier_Write (sample.webhook (server.mkEvent "" server.OtherInnerEvent) "")
      verifier body = Ok verifier' /\
    server.verifier_Ensure (sample.webhook (server.mkEvent "" server.OtherInnerEvent) "")
      verifier' = None /\
    Go.ReadAll (server.Body sample.signed) = (body, None) /\
    Go.ReadAll
      (server.Body
         (fst (server.verifySlackReqeust
                 (sample.webhook (server.mkEvent "" server.OtherInnerEvent) "")
                 sample.signed "secret")))
    = (body, None).
Proof.
  apply (accepted_request_delivers_the_verified_bytes
           (sample.webhook (server.mkEvent "" server.OtherInnerEvent) "")
           sample.signed "secret").
  reflexivity.
Defined.

(** X2. Verification leaves the headers and the context of the request as
    they were, whatever its outcome, and when the verifier cannot be
    created the body is not read: the request is returned unchanged. *)
Theorem verification_touches_only_the_body
    (w : server.World) (req : server.Request) (secret : string) :
  server.Header (fst (server.verifySlackReqeust w req secret))
  = server.Header req /\
  server.ctx_token (fst (server.verifySlackReqeust w req secret))
  = server.ctx_token req /\
  forall err,
    server.NewSecretsVerifier w (server.Header req) secret = Err err ->
    server.verifySlackReqeust w req secret =
    (req, Some (server.Wrap err "failed to create secrets verifier")).
Proof.
  unfold server.verifySlackReqeust.
  destruct (server.NewSecretsVerifier w (server.Header req) secret)
    as [verifier | err0].
  - destruct (Go.ReadAll (server.Body req)) as [body [err |]];
      [repeat split; discriminate |].
    destruct (server.verifier_Write w verifier body) as [verifier' | err];
      [| repeat split; discriminate].
    destruct (server.verifier_Ensure w verifier');
      repeat split; discriminate.
  - repeat split. intros err [= ->]. reflexivity.
Qed.

(** X3. A webhook request that fails verification is answered with status
    400 and the error of the verification, and none of its events is
    processed. *)
Theorem unverified_webhook_is_rejected
    (w : server.World) (config : server.Config) (r : server.Request)
    (err : string) :
  snd (server.verifySlackReqeust w r (server.SlackSigningSecret config))
  = Some err ->
  server.handlePostSlack w config r =
  (server.mkResponseWriter (Some 400) [server.DError err], []).
Proof.
  intros Hfail. unfold server.handlePostSlack.
  destruct (server.verifySlackReqeust w r (server.SlackSigningSecret config))
    as [r' res]. cbn in Hfail. subst res. reflexivity.
Qed.

Lemma unsigned_webhook_is_rejected :
  server.handlePostSlack
    (sample.webhook (server.mkEvent "event_callback" (server.MessageEvent "hi")) "")
    sample.config sample.unsigned =
  (server.mkResponseWriter (Some 400)
     [server.DError "failed to ensure the verifier: Expected signing signature"],
   []).
Proof.
  apply (unverified_webhook_is_rejected
           (sample.webhook
              (server.mkEvent "event_callback" (server.MessageEvent "hi")) "")
           sample.config sample.unsigned
           "failed to ensure the verifier: Expected signing signature").
  reflexivity.
Defined.

(** X4. An event is handed to the event processor only from a request
    that passed verification, whose received bytes parse to an event that
    is not a URL verification and carries a message; the request is then
    answered with status 200 and an empty body, and that one message is
    all that is processed. *)
Theorem processed_event_came_verified
    (w : server.World) (config : server.Config) (r : server.Request)
    (e : string) :
  In e (snd (server.handlePostSlack w config r)) ->
  snd (server.verifySlackReqeust w r (server.SlackSigningSecret config))
  = None /\
  exists body event,
    Go.ReadAll (server.Body r) = (body, None) /\
    server.ParseEvent w body = Ok event /\
    server.Type_ event <> server.URLVerification /\
    server.InnerEvent_Data event = server.MessageEvent e /\
    server.handlePostSlack w config r =
    (server.mkResponseWriter (Some 200) [], [e]).
Proof.
  unfold server.handlePostSlack.
  pose proof (verifySlackReqeust_accepts w r (server.SlackSigningSecret config))
    as Hacc.
  destruct (server.verifySlackReqeust w r (server.SlackSigningSecret config))
    as [r' [err |]]; [intros [] |].
  destruct (Hacc eq_refl)
    as (verifier & verifier' & body & _ & Hread & _ & _ & Hreq).
  cbn in Hreq. subst r'. cbn [server.Body Go.NewBuffer Go.ReadAll Go.content
                              Go.failure].
  destruct (server.ParseEvent w body) as [event | err] eqn:Hparse;
    [| intros []].
  destruct (String.eqb_spec (server.Type_ event) server.URLVerification)
    as [Heq | Hne].
  - destruct (server.Unmarshal_challenge w body); intros [].
  - destruct (server.InnerEvent_Data event) as [e' |] eqn:Hinner;
      [| intros []].
    intros [<- | []]. split; [reflexivity |]. exists body, event.
    repeat split; assumption || reflexivity.
Qed.

Lemma signed_message_is_processed :
  snd (server.verifySlackReqeust
         (sample.webhook
            (server.mkEvent "event_callback" (server.MessageEvent "hi")) "")
         sample.signed (server.SlackSigningSecret sample.config))
  = None /\
  exists body event,
    Go.ReadAll (server.Body sample.signed) = (body, None) /\
    server.ParseEvent
      (sample.webhook
         (server.mkEvent "event_callback" (server.MessageEvent "hi")) "")
      body = Ok event /\
    server.Type_ event <> server.URLVerification /\
    server.InnerEvent_Data event = server.MessageEvent "hi" /\
    server.handlePostSlack
      (sample.webhook
         (server.mkEvent "event_callback" (server.MessageEvent "hi")) "")
      sample.config sample.signed =
    (server.mkResponseWriter (Some 200) [], ["hi"]).
Proof.
  apply (processed_event_came_verified
           (sample.webhook
              (server.mkEvent "event_callback" (server.MessageEvent "hi")) "")
           sample.config sample.signed "hi").
  vm_compute. left. reflexivity.
Defined.

(** X5. A verified request whose bytes parse to a URL verification is
    answered with status 200 and the challenge unmarshalled from those
    bytes, and nothing is processed, even when the event carries a
    message. *)
Theorem challenge_is_echoed
    (w : server.World) (config : server.Config) (r : server.Request)
    (body : list Byte.byte) (event : server.EventsAPIEvent)
    (challenge : string) :
  snd (server.verifySlackReqeust w r (server.SlackSigningSecret config))
  = None ->
  Go.ReadAll (server.Body r) = (body, None) ->
  server.ParseEvent w body = Ok event ->
  server.Type_ event = server.URLVerification ->
  server.Unmarshal_challenge w body = Ok challenge ->
  server.handlePostSlack w config r =
  (server.mkResponseWriter (Some 200) [server.DChallenge challenge], []).
Proof.
  intros Hok Hread Hparse Htype Hchallenge.
  destruct (verifySlackReqeust_accepts w r _ Hok)
    as (verifier & verifier' & body' & _ & Hread' & _ & _ & Hreq).
  rewrite Hread in Hread'. injection Hread' as <-.
  unfold server.handlePostSlack.
  destruct (server.verifySlackReqeust w r (server.SlackSigningSecret config))
    as [r' res]. cbn in Hok, Hreq. subst res r'.
  cbn [server.Body Go.NewBuffer Go.ReadAll Go.content Go.failure].
  rewrite Hparse, Htype, String.eqb_refl, Hchallenge. reflexivity.
Qed.

Lemma signed_challenge_is_echoed :
  server.handlePostSlack
    (sample.webhook
       (server.mkEvent "url_verification" (server.MessageEvent "hi")) "3eZbrw")
    sample.config sample.signed =
  (server.mkResponseWriter (Some 200) [server.DChallenge "3eZbrw"], []).
Proof.
  apply (challenge_is_echoed
           (sample.webhook
              (server.mkEvent "url_verification" (server.MessageEvent "hi"))
              "3eZbrw")
           sample.config sample.signed [Byte.x7b; Byte.x7d]
           (server.mkEvent "url_verification" (server.MessageEvent "hi"))
           "3eZbrw"); reflexivity.
Defined.

(** ** The invite callback *)

Section CallbackFacts.

Import server invite.

Context (w : World) (config : Config).

(** No step of a run changes the default expiration of the store. *)
Lemma step_defaultExpiration (q : request) (stateMap : cache.Cache bool) :
  cache.defaultExpiration (fst (step w config q stateMap))
  = cache.defaultExpiration stateMap.
Proof.
  destruct q as [now state | now r | now]; cbn; try reflexivity.
  pose proof (handlePostSlackInvite_cases w config now r stateMap) as Hcases.
  destruct (handlePostSlackInvite w config now r stateMap)
    as [[stateMap' rw] sent]. cbn.
  destruct Hcases as [(_ & -> & _) | (body & req & _ & _ & _ & -> & _)];
    reflexivity.
Qed.

Lemma run_defaultExpiration (qs : list request) : forall stateMap,
  cache.defaultExpiration (run w config qs stateMap)
  = cache.defaultExpiration stateMap.
Proof.
  induction qs as [| q qs IH]; intros stateMap; [reflexivity |].
  cbn. unfold run in IH. rewrite IH. apply step_defaultExpiration.
Qed.

(** An item stored for the default time is not found once that time is
    over, swept or not. *)
Lemma Get_Set_stale {V} (c : cache.Cache V) (t0 now : Z) (k : string) (x : V) :
  0 < cache.defaultExpiration c ->
  0 < t0 + cache.defaultExpiration c ->
  t0 + cache.defaultExpiration c < now ->
  cache.Get (cache.Set_ c t0 k x 0) now k = None.
Proof.
  intros Hd He Hnow. unfold cache.Get, cache.Set_, cache.expired. cbn.
  rewrite lookup_insert_eq. cbn.
  destruct (Z.ltb_spec 0 (cache.defaultExpiration c)); [| lia]. cbn.
  destruct (Z.ltb_spec 0 (t0 + cache.defaultExpiration c)); [| lia].
  destruct (Z.ltb_spec (t0 + cache.defaultExpiration c) now); [| lia].
  reflexivity.
Qed.

End CallbackFacts.

(** X6. A callback that sends nothing to the token endpoint is answered
    with status 400 and leaves the state store exactly as it was: a
    rejected callback, for instance one with an empty code, consumes no
    state. *)
Theorem rejected_callback_consumes_no_state
    (w : server.World) (config : server.Config) (now : Z)
    (r : server.Request) (stateMap : cache.Cache bool) :
  snd (server.handlePostSlackInvite w config now r stateMap) = [] ->
  fst (fst (server.handlePostSlackInvite w config now r stateMap)) = stateMap /\
  server.status (snd (fst (server.handlePostSlackInvite w config now r stateMap)))
  = Some 400.
Proof.
  pose proof (handlePostSlackInvite_cases w config now r stateMap) as Hcases.
  destruct (server.handlePostSlackInvite w config now r stateMap)
    as [[stateMap' rw] sent]. cbn.
  destruct Hcases as [(_ & -> & Hstatus & _) | (body & req & _ & _ & _ & _ & ->)].
  - intros _. split; [reflexivity | exact Hstatus].
  - discriminate.
Qed.

Lemma callback_without_code_consumes_no_state :
  let w := sample.gateway (Ok (server.mkSlackInvite "tok" "")) (Err "EOF") in
  let issued :=
    fst (server.handleGetSlackInvite w sample.config 0 "tok"
           server.stateMap_init) in
  fst (fst (server.handlePostSlackInvite w sample.config 1 sample.anonymous
              issued)) = issued /\
  server.status
    (snd (fst (server.handlePostSlackInvite w sample.config 1 sample.anonymous
                 issued))) = Some 400.
Proof.
  apply (rejected_callback_consumes_no_state
           (sample.gateway (Ok (server.mkSlackInvite "tok" "")) (Err "EOF"))
           sample.config 1 sample.anonymous).
  reflexivity.
Defined.

(** X7. The state is consumed before the exchange: when the state is found
    and the request to the token endpoint fails, the callback is answered
    with status 500 after one request was sent, and a second callback
    with the same body is rejected with status 400 without a request. *)
Theorem failed_exchange_still_consumes_the_state
    (w : server.World) (config : server.Config) (now now' : Z)
    (r : server.Request) (stateMap : cache.Cache bool)
    (body : server.SlackInvite) (err : string) :
  server.Decode_SlackInvite w (server.Body r) = Ok body ->
  server.IsValid body = true ->
  is_Some (cache.Get stateMap now (server.State body)) ->
  (forall req, server.client_Do w req = Err err) ->
  let '(stateMap', rw, sent) :=
    server.handlePostSlackInvite w config now r stateMap in
  server.status rw = Some 500 /\ length sent = 1%nat /\
  let '(stateMap'', rw', sent') :=
    server.handlePostSlackInvite w config now' r stateMap' in
  server.status rw' = Some 400 /\ sent' = [] /\ stateMap'' = stateMap'.
Proof.
  intros Hdec Hvalid Hsome Hdo.
  assert (Hfirst :
    exists req,
      server.handlePostSlackInvite w config now r stateMap =
      (cache.Delete stateMap (server.State body),
       server.writeError server.newResponse
         (server.Wrap err "failed to make post request to ccp") 500, [req])).
  { unfold server.handlePostSlackInvite, server.redeem.
    rewrite Hdec, Hvalid. cbn [negb].
    destruct Hsome as [v ->]. rewrite Hdo. eexists. reflexivity. }
  destruct Hfirst as [req ->]. split; [reflexivity |]. split; [reflexivity |].
  pose proof (handlePostSlackInvite_cases w config now' r
                (cache.Delete stateMap (server.State body))) as Hcases.
  destruct (server.handlePostSlackInvite w config now' r
              (cache.Delete stateMap (server.State body)))
    as [[stateMap'' rw'] sent'].
  destruct Hcases as [(-> & -> & Hstatus & _)
                     | (body' & req' & Hdec' & _ & Hsome' & _)].
  - auto.
  - rewrite Hdec in Hdec'. injection Hdec' as <-.
    rewrite Get_Delete in Hsome'. by destruct Hsome'.
Qed.

Lemma offline_exchange_consumes_the_state :
  let issued :=
    fst (server.handleGetSlackInvite sample.offline sample.config 0 "tok"
           server.stateMap_init) in
  let '(stateMap', rw, sent) :=
    server.handlePostSlackInvite sample.offline sample.config 1
      sample.anonymous issued in
  server.status rw = Some 500 /\ length sent = 1%nat /\
  let '(stateMap'', rw', sent') :=
    server.handlePostSlackInvite sample.offline sample.config 2
      sample.anonymous stateMap' in
  server.status rw' = Some 400 /\ sent' = [] /\ stateMap'' = stateMap'.
Proof.
  apply (failed_exchange_still_consumes_the_state sample.offline sample.config
           1 2 sample.anonymous
           (fst (server.handleGetSlackInvite sample.offline sample.config 0
                   "tok" server.stateMap_init))
           (server.mkSlackInvite "tok" "code") "connection refused");
    try reflexivity.
  vm_compute. eauto.
Defined.

(** X8. The callback answers with status 200 only after the exchange: one
    request, whose form carries the grant type and the code of the body,
    was sent to the token endpoint, its response was decoded, and the
    decoded data is the one document of the answer. *)
Theorem callback_success_returns_the_exchange
    (w : server.World) (config : server.Config) (now : Z)
    (r : server.Request) (stateMap : cache.Cache bool) :
  server.status (snd (fst (server.handlePostSlackInvite w config now r stateMap)))
  = Some 200 ->
  exists body req resp data,
    server.Decode_SlackInvite w (server.Body r) = Ok body /\
    snd (server.handlePostSlackInvite w config now r stateMap) = [req] /\
    server.URL req = "https://login.eveonline.com/v2/oauth/token" /\
    server.Form req =
    server.Values_Encode w
      [("grant_type", "authorization_code"); ("code", server.Code body)] /\
    server.client_Do w req = Ok resp /\
    server.Decode_data w resp = Ok data /\
    server.written
      (snd (fst (server.handlePostSlackInvite w config now r stateMap)))
    = [server.DData data].
Proof.
  unfold server.handlePostSlackInvite.
  destruct (server.Decode_SlackInvite w (server.Body r)) as [body | err];
    [| discriminate].
  destruct (negb (server.IsValid body)); [discriminate |].
  destruct (server.redeem now (server.State body) stateMap)
    as [stateMap' [|]]; [| discriminate].
  match goal with
  | |- context [server.client_Do w ?q] => set (req := q)
  end.
  destruct (server.client_Do w req) as [resp | err] eqn:Hdo; [| discriminate].
  destruct (server.Decode_data w resp) as [data | err] eqn:Hdata;
    [| discriminate].
  intros _. exists body, req, resp, data.
  repeat split; assumption || reflexivity.
Qed.

Lemma redeemed_callback_returns_the_exchange :
  let issued :=
    fst (server.handleGetSlackInvite sample.presenter sample.config 0 "tok"
           server.stateMap_init) in
  exists body req resp data,
    server.Decode_SlackInvite sample.presenter (server.Body sample.anonymous)
    = Ok body /\
    snd (server.handlePostSlackInvite sample.presenter sample.config 1
           sample.anonymous issued) = [req] /\
    server.URL req = "https://login.eveonline.com/v2/oauth/token" /\
    server.Form req =
    server.Values_Encode sample.presenter
      [("grant_type", "authorization_code"); ("code", server.Code body)] /\
    server.client_Do sample.presenter req = Ok resp /\
    server.Decode_data sample.presenter resp = Ok data /\
    server.written
      (snd (fst (server.handlePostSlackInvite sample.presenter sample.config 1
                   sample.anonymous issued)))
    = [server.DData data].
Proof.
  apply (callback_success_returns_the_exchange sample.presenter sample.config
           1 sample.anonymous).
  reflexivity.
Defined.

(** X9. A callback leaves every state other than the one it carries as it
    was: whatever becomes of the request, a lookup of another state gives
    afterwards what it gave before. *)
Theorem callback_leaves_other_states
    (w : server.World) (config : server.Config) (now now' : Z)
    (r : server.Request) (stateMap : cache.Cache bool) (other : string) :
  (forall body,
     server.Decode_SlackInvite w (server.Body r) = Ok body ->
     server.State body <> other) ->
  cache.Get (fst (fst (server.handlePostSlackInvite w config now r stateMap)))
    now' other
  = cache.Get stateMap now' other.
Proof.
  intros Hother.
  pose proof (handlePostSlackInvite_cases w config now r stateMap) as Hcases.
  destruct (server.handlePostSlackInvite w config now r stateMap)
    as [[stateMap' rw] sent]. cbn.
  destruct Hcases as [(_ & -> & _) | (body & req & Hdec & _ & _ & -> & _)];
    [reflexivity |].
  unfold cache.Get. cbn. rewrite lookup_delete_ne; [reflexivity |].
  by apply Hother.
Qed.

Lemma redeeming_one_state_leaves_the_other :
  let issued :=
    fst (server.handleGetSlackInvite sample.presenter sample.config 0 "other"
           (fst (server.handleGetSlackInvite sample.presenter sample.config 0
                   "tok" server.stateMap_init))) in
  cache.Get issued 2 "other" = Some true /\
  cache.Get
    (fst (fst (server.handlePostSlackInvite sample.presenter sample.config 1
                 sample.anonymous issued))) 2 "other"
  = cache.Get issued 2 "other".
Proof.
  split; [reflexivity |].
  apply (callback_leaves_other_states sample.presenter sample.config 1 2
           sample.anonymous).
  intros body [= <-]. discriminate.
Defined.

(** X10. On the store of the server, after any run of the invite
    endpoints and the janitor, a state is redeemable for five minutes
    from its issue and no longer: a callback that presents it with a code
    within that time sends its request to the token endpoint, and one
    that presents it later is answered with status 400, sends nothing and
    leaves the store as it was, whether or not the janitor has swept. *)
Theorem state_is_redeemable_for_five_minutes
    (w : server.World) (config : server.Config) (qs : list invite.request)
    (now0 now : Z) (token : string) (r : server.Request)
    (body : server.SlackInvite) :
  server.Decode_SlackInvite w (server.Body r) = Ok body ->
  server.State body = token ->
  server.IsValid body = true ->
  0 < now0 + 5 * GoTime.Minute ->
  let issued :=
    fst (server.handleGetSlackInvite w config now0 token
           (invite.run w config qs server.stateMap_init)) in
  let '(stateMap', rw, sent) :=
    server.handlePostSlackInvite w config now r issued in
  (now <= now0 + 5 * GoTime.Minute -> length sent = 1%nat) /\
  (now0 + 5 * GoTime.Minute < now ->
   server.status rw = Some 400 /\ sent = [] /\ stateMap' = issued).
Proof.
  intros Hdec Hstate Hvalid Hpos issued.
  pose proof (run_defaultExpiration w config qs server.stateMap_init) as Hde.
  change (cache.defaultExpiration server.stateMap_init)
    with (5 * GoTime.Minute) in Hde.
  set (stateMap := invite.run w config qs server.stateMap_init) in *.
  assert (Hissued : issued = cache.Set_ stateMap now0 token true 0)
    by reflexivity.
  pose proof (handlePostSlackInvite_cases w config now r issued) as Hcases.
  destruct (server.handlePostSlackInvite w config now r issued)
    as [[stateMap' rw] sent].
  rewrite Hdec, Hstate in Hcases.
  destruct Hcases as [(-> & -> & Hstatus & [Hinv | Hmiss])
                     | (body' & req & [= <-] & _ & Hsome & _ & ->)].
  - congruence.
  - split; [| auto]. intros Hnow. rewrite Hissued in Hmiss.
    rewrite Get_Set_fresh in Hmiss; [discriminate | lia].
  - split; [reflexivity |]. intros Hlate. exfalso.
    rewrite Hstate, Hissued in Hsome.
    rewrite Get_Set_stale in Hsome; [by destruct Hsome | | |];
      rewrite Hde; unfold GoTime.Minute, GoTime.Second in *; lia.
Qed.

Lemma state_presented_after_six_minutes :
  let issued :=
    fst (server.handleGetSlackInvite sample.presenter sample.config 0 "tok"
           (invite.run sample.presenter sample.config sample.replayed
              server.stateMap_init)) in
  let '(stateMap', rw, sent) :=
    server.handlePostSlackInvite sample.presenter sample.config
      (6 * GoTime.Minute) sample.anonymous issued in
  (6 * GoTime.Minute <= 0 + 5 * GoTime.Minute -> length sent = 1%nat) /\
  (0 + 5 * GoTime.Minute < 6 * GoTime.Minute ->
   server.status rw = Some 400 /\ sent = [] /\ stateMap' = issued).
Proof.
  apply (state_is_redeemable_for_five_minutes sample.presenter sample.config
           sample.replayed 0 (6 * GoTime.Minute) "tok" sample.anonymous
           (server.mkSlackInvite "tok" "code")); reflexivity.
Defined.

(** ** The route status handler *)

Section RouteStatusFacts.

Import eb2 nslack slack.

Context (w : World).

Lemma filter_nil_iff {A} (p : A -> bool) (l : list A) :
  List.filter p l = [] <-> forall x, In x l -> p x = false.
Proof.
  induction l as [| a l IH]; cbn; [tauto |].
  destruct (p a) eqn:Hpa; split.
  - discriminate.
  - intros Hall. specialize (Hall a (or_introl eq_refl)). congruence.
  - intros Hnil x [<- | Hin]; [exact Hpa | by apply IH].
  - intros Hall. apply IH. auto.
Qed.

Lemma len_is_zero {A} (l : list A) :
  (Go.len l =? 0) = match l with [] => true | _ => false end.
Proof. destruct l; reflexivity. Qed.

(** The inner loop panics exactly when a route is a nil pointer. *)
Lemma categoryRoutes_None (category : StatusCategory)
    (routes : list (option ESIStatus)) :
  categoryRoutes category routes = None <-> In None routes.
Proof.
  induction routes as [| [route |] rest IH]; cbn.
  - split; [discriminate | tauto].
  - destruct (categoryRoutes category rest) as [kept |].
    + split; [discriminate |]. intros [Heq | Hin]; [discriminate |].
      apply IH in Hin. discriminate.
    + split; [| reflexivity]. intros _. right. by apply IH.
  - split; [auto | reflexivity].
Qed.

(** On routes that are all values it keeps those of the category. *)
Lemma categoryRoutes_values (category : StatusCategory)
    (rs : list ESIStatus) :
  categoryRoutes category (map Some rs) =
  Some (List.filter
          (fun route => String.eqb (Status route) (CStatus category)) rs).
Proof.
  induction rs as [| route rest IH]; cbn; [reflexivity |].
  rewrite IH. reflexivity.
Qed.

Lemma classic_nil (routes : list (option ESIStatus)) :
  In None routes \/ ~ In None routes.
Proof.
  induction routes as [| [route |] rest IH]; cbn.
  - right. tauto.
  - destruct IH as [Hin | Hout]; [left; by right | right].
    intros [Heq | Hin]; [discriminate | by apply Hout].
  - left. by left.
Qed.

Lemma values_of (routes : list (option ESIStatus)) :
  ~ In None routes -> exists rs, routes = map Some rs.
Proof.
  induction routes as [| [route |] rest IH]; intros Hnone.
  - by exists [].
  - destruct IH as [rs ->]; [intros Hin; apply Hnone; by right |].
    by exists (route :: rs).
  - destruct Hnone. by left.
Qed.

(** The attachment of a category is there exactly when a route has the
    status of the category, and then it has the colour of the category. *)
Lemma categoryAttachments_cases (rs : list ESIStatus)
    (category : StatusCategory) :
  (categoryAttachments w (map Some rs) category = Some [] /\
   forall route, In route rs -> Status route <> CStatus category) \/
  (exists a route,
     categoryAttachments w (map Some rs) category = Some [a] /\
     Color a = CColor category /\
     In route rs /\ Status route = CStatus category).
Proof.
  unfold categoryAttachments. rewrite categoryRoutes_values.
  set (matching :=
         List.filter (fun route => String.eqb (Status route) (CStatus category))
           rs).
  destruct matching as [| route rest] eqn:Hmatching.
  - left. split; [reflexivity |]. intros route Hin.
    apply String.eqb_neq.
    by apply (proj1 (filter_nil_iff _ rs) Hmatching).
  - right. assert (Hin : In route matching) by (rewrite Hmatching; by left).
    apply filter_In in Hin as [Hin Heq]. apply String.eqb_eq in Heq.
    change (0 <? Go.len (route :: rest))
      with (0 <? Z.pos (Pos.of_succ_nat (length rest))).
    eexists _, route. cbn. auto.
Qed.

(** The loops panic exactly when a route is a nil pointer. *)
Lemma statusAttachments_None (routes : list (option ESIStatus)) :
  statusAttachments w routes = None <-> In None routes.
Proof.
  unfold statusAttachments, categories, attachmentsOf, categoryAttachments.
  pose proof (categoryRoutes_None (mkCategory "red" ":fire:" "danger") routes)
    as Hred.
  pose proof (categoryRoutes_None
                (mkCategory "yellow" ":fire_engine:" "warning") routes)
    as Hyellow.
  destruct (categoryRoutes (mkCategory "red" ":fire:" "danger") routes);
    [| split; [intros _; by apply Hred | reflexivity]].
  destruct (categoryRoutes (mkCategory "yellow" ":fire_engine:" "warning")
              routes);
    [| split; [intros _; by apply Hyellow | reflexivity]].
  split; [discriminate |]. intros Hin. apply Hred in Hin. discriminate.
Qed.

(** The reply for routes that are all values. *)
Lemma statusAttachments_values (rs : list ESIStatus) :
  exists attachments,
    statusAttachments w (map Some rs) = Some attachments /\
    (1 <= length attachments <= 2)%nat /\
    (attachments = [mkAttachment "" "" "" ":ok_hand:" []] <->
     forall route, In route rs ->
       Status route <> "red" /\ Status route <> "yellow") /\
    ((exists route, In route rs /\ Status route = "red") ->
     exists a rest, attachments = a :: rest /\ Color a = "danger") /\
    ((forall route, In route rs -> Status route <> "red") ->
     (exists route, In route rs /\ Status route = "yellow") ->
     exists a, attachments = [a] /\ Color a = "warning").
Proof.
  unfold statusAttachments, categories, attachmentsOf.
  destruct (categoryAttachments_cases rs (mkCategory "red" ":fire:" "danger"))
    as [[-> Hred] | (a & route & -> & Hcolor & Hin & Hstatus)];
  destruct (categoryAttachments_cases rs
              (mkCategory "yellow" ":fire_engine:" "warning"))
    as [[-> Hyellow] | (a' & route' & -> & Hcolor' & Hin' & Hstatus')];
  rewrite len_is_zero; cbn in *; eexists; (split; [reflexivity |]);
  (split; [cbn [length]; lia |]).
  - split; [split; [auto | reflexivity] |]. split.
    + intros (route & Hin & Hstatus). by destruct (Hred route Hin).
    + intros _ (route & Hin & Hstatus). by destruct (Hyellow route Hin).
  - split; [split |].
    + intros [= ->]. discriminate.
    + intros Hall. destruct (Hall route' Hin') as [_ Hne]. congruence.
    + split.
      * intros (route & Hin & Hstatus). by destruct (Hred route Hin).
      * intros _ _. eauto.
  - split; [split |].
    + intros [= ->]. discriminate.
    + intros Hall. destruct (Hall route Hin) as [Hne _]. congruence.
    + split; [intros _; eauto |].
      intros Hnone. by destruct (Hnone route Hin).
  - split; [split |].
    + discriminate.
    + intros Hall. destruct (Hall route Hin) as [Hne _]. congruence.
    + split; [intros _; eauto |].
      intros Hnone. by destruct (Hnone route Hin).
Qed.

End RouteStatusFacts.

(** X11. The loops that build the reply for a route list panic exactly
    when a route of the list is a nil pointer, and the reply is the
    all-clear attachment exactly when every route is a value whose status
    is neither red nor yellow. *)
Theorem all_clear_iff_no_red_or_yellow
    (w : slack.World) (routes : list (option eb2.ESIStatus)) :
  (slack.statusAttachments w routes = None <-> In None routes) /\
  (slack.statusAttachments w routes
   = Some [nslack.mkAttachment "" "" "" ":ok_hand:" []]
   <->
   forall r, In r routes ->
     exists route,
       r = Some route /\
       eb2.Status route <> "red" /\ eb2.Status route <> "yellow").
Proof.
  split; [apply statusAttachments_None |].
  destruct (classic_nil routes) as [Hnil | Hvalues].
  - split.
    + intros Hsome. apply (statusAttachments_None w) in Hnil. congruence.
    + intros Hall. destruct (Hall None Hnil) as (route & Heq & _).
      discriminate.
  - destruct (values_of routes Hvalues) as [rs ->].
    destruct (statusAttachments_values w rs)
      as (attachments & -> & _ & Hclear & _).
    split.
    + intros [= ->]. intros r Hin. apply in_map_iff in Hin as (route & <- & Hin).
      exists route. split; [reflexivity |]. by apply Hclear.
    + intros Hall. f_equal. apply Hclear. intros route Hin.
      destruct (Hall (Some route)) as (route' & [= <-] & Hne);
        [by apply in_map | exact Hne].
Qed.

(** X12. For a route list without nil pointers the reply has one
    attachment or two, and red comes first: when a route is red the first
    attachment has the colour danger, and when no route is red but one is
    yellow the reply is a single attachment of the colour warning. *)
Theorem red_routes_are_reported_first
    (w : slack.World) (rs : list eb2.ESIStatus) :
  exists attachments,
    slack.statusAttachments w (map Some rs) = Some attachments /\
    (1 <= length attachments <= 2)%nat /\
    ((exists route, In route rs /\ eb2.Status route = "red") ->
     exists a rest, attachments = a :: rest /\ nslack.Color a = "danger") /\
    ((forall route, In route rs -> eb2.Status route <> "red") ->
     (exists route, In route rs /\ eb2.Status route = "yellow") ->
     exists a, attachments = [a] /\ nslack.Color a = "warning").
Proof.
  destruct (statusAttachments_values w rs)
    as (attachments & Heq & Hlen & _ & Hred & Hyellow).
  exists attachments. auto.
Qed.

(** X13. The rendering of a route list never has more than 52 lines, and
    a list of up to 50 routes is rendered whole, one line for each route
    in the order of the list. *)
Theorem route_lines_are_bounded
    (w : slack.World) (routes : list eb2.ESIStatus) :
  (length (slack.routeLines w 0 routes) <= 52)%nat /\
  (Go.len routes <= 50 ->
   slack.routeLines w 0 routes = map (slack.routeLine w) routes).
Proof.
  rewrite routeLines_whole. unfold Go.len. split.
  - rewrite length_app, length_map, length_take.
    destruct (51 <=? Z.of_nat (length routes)); cbn [length]; lia.
  - intros Hlen.
    destruct (Z.leb_spec 51 (Z.of_nat (length routes))); [lia |].
    rewrite app_nil_r, take_ge by lia. reflexivity.
Qed.

(** X14. A request for the route statuses panics exactly when its lookup
    hits and the cached routes hold a nil pointer, and then nothing is
    posted and the cache is left alone; a request that returns has posted
    exactly one message on the channel of the event. The cache is changed
    only when the lookup missed and the fetch succeeded: on a hit, and on
    a failed fetch, the cache afterwards is the cache before. *)
Theorem route_status_reply_is_single
    (w : slack.World) (now : Z) (event : slack.Event)
    (statusCache : cache.Cache (list (option eb2.ESIStatus))) :
  let result := slack.makeESIStatusMessage w now event statusCache in
  (snd result = slack.Panicked <->
   exists routes,
     cache.Get statusCache now (slack.requestedVersion event) = Some routes /\
     In None routes) /\
  (snd result = slack.Returned ->
   exists m, snd (fst result) = [(slack.origin_Channel event, m)]) /\
  (snd result = slack.Panicked ->
   snd (fst result) = [] /\ fst (fst result) = statusCache) /\
  (is_Some (cache.Get statusCache now (slack.requestedVersion event)) \/
   (exists err,
      snd (slack.fetchRouteStatuses w now (slack.requestedVersion event)
             statusCache) = Err err) ->
   fst (fst result) = statusCache).
Proof.
  cbv zeta. unfold slack.makeESIStatusMessage, slack.checkCache, slack.refresh.
  destruct (cache.Get statusCache now (slack.requestedVersion event))
    as [routes |] eqn:Hget; cbn [negb].
  - pose proof (statusAttachments_None w routes) as Hpanic.
    destruct (slack.statusAttachments w routes) as [attachments |]; cbn.
    + split; [split; [discriminate |] |].
      * intros (routes' & [= <-] & Hin). apply Hpanic in Hin. discriminate.
      * split; [eauto |]. split; [discriminate | reflexivity].
    + split; [split; [intros _; exists routes; split; [reflexivity |] | reflexivity] |].
      * by apply Hpanic.
      * split; [discriminate |]. split; [split; reflexivity | reflexivity].
  - assert (Hmiss : forall P : Prop,
              (exists routes : list (option eb2.ESIStatus),
                 None = Some routes /\ In None routes) -> P)
      by (intros P (routes & Heq & _); discriminate).
    pose proof (fetchRouteStatuses_error w now (slack.requestedVersion event)
                  statusCache) as Hsame.
    destruct (slack.fetchRouteStatuses w now (slack.requestedVersion event)
                statusCache) as [statusCache' [routes | err]];
      cbn [fst snd] in *.
    + rewrite statusAttachments_nil. cbn [fst snd].
      split; [split; [discriminate | apply Hmiss] |].
      split; [eauto |]. split; [discriminate |].
      intros [[x Hx] | [err Herr]]; discriminate.
    + rewrite (Hsame err eq_refl).
      split; [split; [discriminate | apply Hmiss] |].
      split; [eauto |]. split; [discriminate | reflexivity].
Qed.



(** ** The server status handler *)

(** X16. Every request for the server status is answered with exactly one
    message on the channel it came from, whatever the upstream does. *)
Theorem server_status_reply_is_single
    (w : slack.World) (now : GoTime.Time) (channel : string) :
  exists m, slack.makeEveServerStatusMessage w now channel = [(channel, m)].
Proof.
  unfold slack.makeEveServerStatusMessage.
  destruct (slack.http_Get w _) as [resp | err]; [| eauto].
  destruct (200 <? slack.StatusCode resp).
  - destruct (negb (slack.StatusCode resp =? 503)); eauto.
  - destruct (Go.ReadAll (slack.Body resp)) as [data [err |]]; [eauto |].
    destruct (slack.Unmarshal_status w data); eauto.
Qed.

(** X17. Any status code above 200, the other codes of the 2xx class
    among them, is reported as a failure without the body being read: the
    reply is one attachment of the colour danger, whose text is Offline
    exactly when the code is 503. *)
Theorem status_code_above_200_is_a_failure
    (w : slack.World) (now : GoTime.Time) (channel : string)
    (resp : slack.Response) :
  slack.http_Get w (slack.mkURL "/v1/status" []) = Ok resp ->
  200 < slack.StatusCode resp ->
  exists a,
    slack.makeEveServerStatusMessage w now channel =
    [(channel, nslack.MsgOptionAttachments [a])] /\
    nslack.Color a = "danger" /\ nslack.Fields a = [] /\
    (nslack.Text a = "Offline" <-> slack.StatusCode resp = 503).
Proof.
  intros Hget Hcode. unfold slack.makeEveServerStatusMessage. rewrite Hget.
  destruct (Z.ltb_spec 200 (slack.StatusCode resp)); [| lia].
  destruct (Z.eqb_spec (slack.StatusCode resp) 503) as [Heq | Hne]; cbn [negb];
    eexists; (split; [reflexivity |]); cbn; repeat split; try done.
Qed.

Lemma status_code_204_is_a_failure :
  exists a,
    slack.makeEveServerStatusMessage
      (slack.mkWorld
         (fun _ => Ok (slack.mkResponse 204 (Go.NewBuffer [])))
         (fun _ => Ok []) (fun _ => Ok (eb2.mkServerStatus 0 0 false))
         (fun _ => "") (fun s => s) (fun s => s) (fun _ => ""))
      0 "C-EVE" =
    [("C-EVE", nslack.MsgOptionAttachments [a])] /\
    nslack.Color a = "danger" /\ nslack.Fields a = [] /\
    (nslack.Text a = "Offline" <-> 204 = 503).
Proof.
  apply (status_code_above_200_is_a_failure
           (slack.mkWorld
              (fun _ => Ok (slack.mkResponse 204 (Go.NewBuffer [])))
              (fun _ => Ok []) (fun _ => Ok (eb2.mkServerStatus 0 0 false))
              (fun _ => "") (fun s => s) (fun s => s) (fun _ => ""))
           0 "C-EVE" (slack.mkResponse 204 (Go.NewBuffer [])));
    reflexivity.
Defined.

(** ** The running time below one day *)

(** X18. For an uptime of less than 24 hours the "running for" text states
    the uptime itself: its whole hours, its whole minutes within the
    hour, and its whole seconds within the minute. *)
Theorem run_time_is_exact_below_one_day (now from : Z) :
  0 <= now - from < 24 * GoTime.Hour ->
  slack.determineServerRunTime now from =
  GoTime.pad2 ((now - from) / GoTime.Hour) +:+ "h " +:+
  GoTime.pad2 ((now - from) / GoTime.Minute mod 60) +:+ "m " +:+
  GoTime.pad2 ((now - from) / GoTime.Second mod 60) +:+ "s".
Proof.
  intros Hd. unfold slack.determineServerRunTime, GoTime.Add, GoTime.zero.
  rewrite Since_in_range
    by (unfold GoTime.minDuration, GoTime.maxDuration, GoTime.Hour,
          GoTime.Minute, GoTime.Second in *; lia).
  set (d := now - from) in *. rewrite Z.add_0_l.
  unfold GoTime.Format_15h_04m_05s, GoTime.hour, GoTime.minute, GoTime.second,
    GoTime.secondsOfDay.
  assert (Hs : 0 <= d / GoTime.Second < 86400).
  { unfold GoTime.Hour, GoTime.Minute, GoTime.Second in *.
    split; [apply Z.div_pos; lia | apply Z.div_lt_upper_bound; lia]. }
  rewrite (Z.mod_small (d / GoTime.Second) 86400) by exact Hs.
  set (s := d / GoTime.Second) in *.
  assert (Hh : d / GoTime.Hour = s / 3600).
  { unfold s, GoTime.Hour, GoTime.Minute.
    replace (60 * (60 * GoTime.Second)) with (GoTime.Second * 3600) by lia.
    rewrite Z.div_div by (unfold GoTime.Second; lia). reflexivity. }
  assert (Hm : d / GoTime.Minute mod 60 = s mod 3600 / 60).
  { unfold s, GoTime.Minute.
    replace (60 * GoTime.Second) with (GoTime.Second * 60) by lia.
    rewrite <- Z.div_div by (unfold GoTime.Second; lia).
    change 3600 with (60 * 60).
    rewrite Z.rem_mul_r by lia.
    rewrite (Z.mul_comm 60), Z.div_add by lia.
    rewrite (Z.div_small (_ mod 60) 60) by (apply Z.mod_pos_bound; lia).
    reflexivity. }
  rewrite Hh, Hm. reflexivity.
Qed.

Lemma run_time_after_ninety_minutes :
  slack.determineServerRunTime (90 * GoTime.Minute) 0 =
  GoTime.pad2 ((90 * GoTime.Minute - 0) / GoTime.Hour) +:+ "h " +:+
  GoTime.pad2 ((90 * GoTime.Minute - 0) / GoTime.Minute mod 60) +:+ "m " +:+
  GoTime.pad2 ((90 * GoTime.Minute - 0) / GoTime.Second mod 60) +:+ "s".
Proof.
  apply (run_time_is_exact_below_one_day (90 * GoTime.Minute) 0).
  vm_compute. split; [discriminate | reflexivity].
Defined.

(** ** The invite-send endpoint *)

(** X19. The invite-send handler posts to Slack only for a caller whose
    token carries a name: when it posts, the body was decoded, the claims
    of the token hold a string under "name", and the one message posted,
    to the moderation channel, names that caller and the email of the
    body. *)
Theorem invite_send_posts_only_for_a_named_caller
    (w : server.World) (config : server.Config) (r : server.Request) :
  snd (fst (server.handlePostSlackInviteSend w config r)) <> [] ->
  exists body claims realName,
    server.Decode_SlackInviteSend w (server.Body r) = Ok body /\
    server.ctx_token r = Some (server.MapClaims claims) /\
    claims !! "name" = Some (server.ClaimString realName) /\
    snd (fst (server.handlePostSlackInviteSend w config r)) =
    [ (server.SlackModChannel config,
       nslack.MsgOptionText
         (realName +:+ " (" +:+ server.Email body
          +:+ ") has requested an invitation to Tweetfleet.") false) ].
Proof.
  unfold server.handlePostSlackInviteSend.
  destruct (server.Decode_SlackInviteSend w (server.Body r)) as [body | err];
    [| intros []; reflexivity].
  destruct (server.ctx_token r) as [[claims |] |];
    [| intros []; reflexivity | intros []; reflexivity].
  destruct (claims !! "name") as [[realName |] |] eqn:Hname;
    [| intros []; reflexivity | intros []; reflexivity].
  intros _. exists body, claims, realName.
  destruct (server.PostMessage w _ _);
    repeat split; assumption || reflexivity.
Qed.

Lemma invite_send_posts_for_alice :
  exists body claims realName,
    server.Decode_SlackInviteSend sample.offline (server.Body sample.alice)
    = Ok body /\
    server.ctx_token sample.alice = Some (server.MapClaims claims) /\
    claims !! "name" = Some (server.ClaimString realName) /\
    snd (fst (server.handlePostSlackInviteSend sample.offline sample.config
                sample.alice)) =
    [ (server.SlackModChannel sample.config,
       nslack.MsgOptionText
         (realName +:+ " (" +:+ server.Email body
          +:+ ") has requested an invitation to Tweetfleet.") false) ].
Proof.
  apply (invite_send_posts_only_for_a_named_caller sample.offline sample.config
           sample.alice).
  vm_compute. discriminate.
Defined.

(** X20. The invite-send handler answers with status 200 only when the
    email is not empty, the caller is named and Slack accepted the post;
    the answer is then the confirmation alone. *)
Theorem invite_send_success_means_posted
    (w : server.World) (config : server.Config) (r : server.Request) :
  server.status (fst (fst (server.handlePostSlackInviteSend w config r)))
  = Some 200 ->
  exists body claims realName,
    server.Decode_SlackInviteSend w (server.Body r) = Ok body /\
    server.Email body <> "" /\
    server.ctx_token r = Some (server.MapClaims claims) /\
    claims !! "name" = Some (server.ClaimString realName) /\
    server.PostMessage w (server.SlackModChannel config)
      (nslack.MsgOptionText
         (realName +:+ " (" +:+ server.Email body
          +:+ ") has requested an invitation to Tweetfleet.") false)
    = None /\
    server.written (fst (fst (server.handlePostSlackInviteSend w config r))) =
    [ server.DMessage
        "Your request has been submitted successfully. Please monitor your inbox for an invitation for the Tweetfleet Staff. Thank You" ].
Proof.
  unfold server.handlePostSlackInviteSend.
  destruct (server.Decode_SlackInviteSend w (server.Body r)) as [body | err];
    [| discriminate].
  destruct (String.eqb_spec (server.Email body) "") as [Hempty | Hemail].
  - destruct (server.ctx_token r) as [[claims |] |]; try discriminate.
    destruct (claims !! "name") as [[realName |] |]; try discriminate.
    destruct (server.PostMessage w _ _); discriminate.
  - destruct (server.ctx_token r) as [[claims |] |]; try discriminate.
    destruct (claims !! "name") as [[realName |] |] eqn:Hname;
      try discriminate.
    destruct (server.PostMessage w _ _) eqn:Hpost; [discriminate |].
    intros _. exists body, claims, realName.
    repeat split; assumption || reflexivity.
Qed.

Lemma invite_send_success_for_alice :
  exists body claims realName,
    server.Decode_SlackInviteSend
      (sample.gateway (Err "EOF")
         (Ok (server.mkSlackInviteSend "alice@example.org")))
      (server.Body sample.alice) = Ok body /\
    server.Email body <> "" /\
    server.ctx_token sample.alice = Some (server.MapClaims claims) /\
    claims !! "name" = Some (server.ClaimString realName) /\
    server.PostMessage
      (sample.gateway (Err "EOF")
         (Ok (server.mkSlackInviteSend "alice@example.org")))
      (server.SlackModChannel sample.config)
      (nslack.MsgOptionText
         (realName +:+ " (" +:+ server.Email body
          +:+ ") has requested an invitation to Tweetfleet.") false)
    = None /\
    server.written
      (fst (fst (server.handlePostSlackInviteSend
                   (sample.gateway (Err "EOF")
                      (Ok (server.mkSlackInviteSend "alice@example.org")))
                   sample.config sample.alice))) =
    [ server.DMessage
        "Your request has been submitted successfully. Please monitor your inbox for an invitation for the Tweetfleet Staff. Thank You" ].
Proof.
  apply (invite_send_success_means_posted
           (sample.gateway (Err "EOF")
              (Ok (server.mkSlackInviteSend "alice@example.org")))
           sample.config sample.alice).
  reflexivity.
Defined.

(** X21. The invite-send handler panics exactly when the body was decoded
    and the claims of the token are not map claims; nothing has been
    posted by then. *)
Theorem invite_send_panics_on_foreign_claims
    (w : server.World) (config : server.Config) (r : server.Request) :
  (snd (server.handlePostSlackInviteSend w config r) = server.Panicked <->
   (exists body,
      server.Decode_SlackInviteSend w (server.Body r) = Ok body) /\
   server.ctx_token r = Some server.OtherClaims) /\
  (snd (server.handlePostSlackInviteSend w config r) = server.Panicked ->
   snd (fst (server.handlePostSlackInviteSend w config r)) = []).
Proof.
  unfold server.handlePostSlackInviteSend.
  destruct (server.Decode_SlackInviteSend w (server.Body r)) as [body | err].
  - destruct (server.ctx_token r) as [[claims |] |].
    + destruct (claims !! "name") as [[realName |] |];
        [destruct (server.PostMessage w _ _) | |];
        (split; [split; [discriminate | intros [_ [=]]] | discriminate]).
    + split; [split; [eauto | reflexivity] | reflexivity].
    + split; [split; [discriminate | intros [_ [=]]] | discriminate].
  - split; [split; [discriminate | intros [[body [=]] _]] | discriminate].
Qed.

(** ** The janitor and the callbacks *)

Section ExchangeFacts.

Import server invite.

Context (w : World) (config : Config).

(** The answer of a callback and what it sends depend on the store only
    through the lookup of the state it carries. *)
Lemma handlePostSlackInvite_lookup (now : Z) (r : Request)
    (stateMap1 stateMap2 : cache.Cache bool) :
  (forall state,
     cache.Get stateMap1 now state = cache.Get stateMap2 now state) ->
  snd (fst (handlePostSlackInvite w config now r stateMap1))
  = snd (fst (handlePostSlackInvite w config now r stateMap2)) /\
  snd (handlePostSlackInvite w config now r stateMap1)
  = snd (handlePostSlackInvite w config now r stateMap2).
Proof.
  intros Hsame. unfold handlePostSlackInvite, redeem.
  destruct (Decode_SlackInvite w (Body r)) as [body | err]; [| auto].
  destruct (negb (IsValid body)); [auto |].
  rewrite (Hsame (State body)).
  destruct (cache.Get stateMap2 now (State body)); [| auto].
  destruct (client_Do w _) as [resp | err]; [| auto].
  destruct (Decode_data w resp); auto.
Qed.

(** A sweep takes away only what a later lookup would not find. *)
Lemma Get_DeleteExpired {V} (c : cache.Cache V) (t now : Z) (k : string) :
  t <= now ->
  cache.Get (cache.DeleteExpired c t) now k = cache.Get c now k.
Proof.
  intros Hle. unfold cache.Get, cache.DeleteExpired. cbn.
  destruct (cache.items c !! k) as [it |] eqn:Hit.
  - destruct (cache.expired t it) eqn:Hexp.
    + rewrite (proj2 (map_lookup_filter_None _ _ _)).
      * unfold cache.expired in *. apply andb_prop in Hexp as [Hpos Hlt].
        rewrite Hpos. cbn.
        destruct (Z.ltb_spec (cache.Expiration it) t); [| discriminate].
        destruct (Z.ltb_spec (cache.Expiration it) now); [reflexivity | lia].
      * right. intros it' Hit'. rewrite Hit in Hit'. injection Hit' as <-.
        cbn. congruence.
    + rewrite (proj2 (map_lookup_filter_Some _ _ _ it)); [reflexivity |].
      split; [exact Hit | exact Hexp].
  - rewrite (proj2 (map_lookup_filter_None _ _ _)); [reflexivity |].
    left. exact Hit.
Qed.

End ExchangeFacts.

(** X22. A sweep of the janitor is invisible to the callbacks that follow
    it: a callback served after a sweep is answered, and sends to the
    token endpoint, exactly as it would have been without the sweep. *)
Theorem sweep_is_invisible_to_callbacks
    (w : server.World) (config : server.Config) (t now : Z)
    (r : server.Request) (stateMap : cache.Cache bool) :
  t <= now ->
  snd (fst (server.handlePostSlackInvite w config now r
              (cache.DeleteExpired stateMap t)))
  = snd (fst (server.handlePostSlackInvite w config now r stateMap)) /\
  snd (server.handlePostSlackInvite w config now r
         (cache.DeleteExpired stateMap t))
  = snd (server.handlePostSlackInvite w config now r stateMap).
Proof.
  intros Hle. apply handlePostSlackInvite_lookup.
  intros state. by apply Get_DeleteExpired.
Qed.

Lemma sweep_before_redemption_changes_nothing :
  let issued :=
    fst (server.handleGetSlackInvite sample.presenter sample.config 0 "tok"
           server.stateMap_init) in
  snd (fst (server.handlePostSlackInvite sample.presenter sample.config 2
              sample.anonymous (cache.DeleteExpired issued 1)))
  = snd (fst (server.handlePostSlackInvite sample.presenter sample.config 2
                sample.anonymous issued)) /\
  snd (server.handlePostSlackInvite sample.presenter sample.config 2
         sample.anonymous (cache.DeleteExpired issued 1))
  = snd (server.handlePostSlackInvite sample.presenter sample.config 2
           sample.anonymous issued).
Proof.
  apply (sweep_is_invisible_to_callbacks sample.presenter sample.config 1 2
           sample.anonymous).
  lia.
Defined.

(** ** The further properties on concrete inputs *)

Lemma red_route_is_reported_first :
  exists attachments,
    slack.statusAttachments (sample.upstream (Ok []))
      (map Some
         [sample.green "/alliances/"; sample.yellow; sample.red "/status/"])
    = Some attachments /\
    (1 <= length attachments <= 2)%nat /\
    ((exists route,
        In route
          [sample.green "/alliances/"; sample.yellow; sample.red "/status/"]
        /\ eb2.Status route = "red") ->
     exists a rest, attachments = a :: rest /\ nslack.Color a = "danger") /\
    ((forall route,
        In route
          [sample.green "/alliances/"; sample.yellow; sample.red "/status/"]
        -> eb2.Status route <> "red") ->
     (exists route,
        In route
          [sample.green "/alliances/"; sample.yellow; sample.red "/status/"]
        /\ eb2.Status route = "yellow") ->
     exists a, attachments = [a] /\ nslack.Color a = "warning").
Proof.
  exact (red_routes_are_reported_first (sample.upstream (Ok []))
           [sample.green "/alliances/"; sample.yellow; sample.red "/status/"]).
Defined.

Lemma two_routes_are_rendered_whole :
  slack.routeLines (sample.upstream (Ok [])) 0
    [sample.red "/status/"; sample.green "/alliances/"]
  = map (slack.routeLine (sample.upstream (Ok [])))
      [sample.red "/status/"; sample.green "/alliances/"].
Proof.
  apply (route_lines_are_bounded (sample.upstream (Ok []))
           [sample.red "/status/"; sample.green "/alliances/"]).
  vm_compute. discriminate.
Defined.

Lemma cached_nil_route_panics :
  let statusCache :=
    cache.Set_ slack.statusCache_init 0 "latest"
      [Some (sample.red "/status/"); None] 0 in
  snd (slack.makeESIStatusMessage sample.unreachable 1
         (slack.mkEvent ∅ "C-ESI") statusCache) = slack.Panicked.
Proof.
  destruct (route_status_reply_is_single sample.unreachable 1
              (slack.mkEvent ∅ "C-ESI")
              (cache.Set_ slack.statusCache_init 0 "latest"
                 [Some (sample.red "/status/"); None] 0))
    as [Hpanic _].
  apply Hpanic. eexists. split; [reflexivity |]. right. left. reflexivity.
Defined.

Lemma foreign_claims_panic :
  snd (server.handlePostSlackInviteSend sample.offline sample.config
         (server.mkRequest ∅ (Go.NewBuffer []) (Some server.OtherClaims)))
  = server.Panicked.
Proof.
  apply (invite_send_panics_on_foreign_claims sample.offline sample.config
           (server.mkRequest ∅ (Go.NewBuffer []) (Some server.OtherClaims))).
  split; [eexists; reflexivity | reflexivity].
Defined.
